(** * logseq-mcp: the TTL cache, the page-path resolver and the
      graph-structure analysis, embedded from the Python sources

    - [src/logseq_mcp/utils/cache.py]       -> [Module Cache]
    - [src/logseq_mcp/utils/filesystem.py]  -> [Module Filesystem]
    - [src/logseq_mcp/config.py]            -> [Module Config]
    - [src/logseq_mcp/resources.py]         -> [Module Resources]

    Python values that the code only passes through are type parameters;
    a call that may raise returns a [result]; code that reads the clock or
    calls the remote client threads an explicit interpreter state. *)

From stdpp Require Import base numbers option list strings gmap fin_maps.
From Stdlib Require Import ZArith Lia Ascii String DecimalString.
From Stdlib Require Import Sorted Permutation.

Local Open Scope string_scope.
Local Open Scope Z_scope.

(** ** Python exceptions and fallible computations *)

Module Py.

(** The exception classes the embedded code can meet, all of them
    subclasses of [Exception] (what [except Exception] catches).  [OSError]
    is the class that [except (OSError, IOError)] catches: [IOError] is an
    alias of it. *)
Inductive exn : Type :=
  | NameError (name : string)
  | AttributeError (attr : string)
  | ValueError (msg : string)
  | TypeError (msg : string)
  | OverflowError (msg : string)
  | OSError (msg : string)
  | RuntimeError (msg : string).

Definition is_OSError (e : exn) : bool :=
  match e with OSError _ => true | _ => false end.

Definition is_ValueError (e : exn) : bool :=
  match e with ValueError _ => true | _ => false end.

Inductive result (A : Type) : Type :=
  | Ok (a : A)
  | Raise (e : exn).
Arguments Ok {A} a.
Arguments Raise {A} e.

Definition bind {A B} (r : result A) (k : A -> result B) : result B :=
  match r with Ok a => k a | Raise e => Raise e end.

(** [bool(s)] for a [str]: only the empty string is falsy. *)
Definition str_truthy (s : string) : bool :=
  match s with EmptyString => false | String _ _ => true end.

End Py.

Import Py.

Notation "x <-? r ; k" := (Py.bind r (fun x => k))
  (at level 100, r at next level, right associativity).

(** ** utils/cache.py *)

Module Cache.

Section WithWorld.

(** [V]: the cached payloads.  [W]: everything outside the cache that a
    fetcher can read or change (the remote graph, the file system, the
    wall clock).  [now w] is what [datetime.now()] returns in [w], in
    microseconds. *)
Context {V W : Type}.
Variable now : W -> Z.

(** [ResourceCache]: [self._cache] maps a key to [(data, timestamp)];
    [self._ttl] is [timedelta(seconds=ttl_seconds)] in microseconds. *)
Record ResourceCache : Type := mkCache {
  _cache : gmap string (V * Z);
  _ttl : Z
}.

Definition __init__ (ttl_seconds : Z) : ResourceCache :=
  {| _cache := ∅; _ttl := ttl_seconds * 1000000 |}.

(** The interpreter state: the world and the number of times a fetcher
    has been called so far. *)
Record state : Type := mkState {
  world : W;
  fetcher_calls : nat
}.

(** A fetcher is a zero-argument callable: it may change the world, and
    it returns a value or raises. *)
Definition callable : Type := W -> result V * W.

Definition call (fetcher : callable) (s : state) : result V * state :=
  let '(r, w') := fetcher (world s) in
  (r, {| world := w'; fetcher_calls := S (fetcher_calls s) |}).

Definition store (self : ResourceCache) (key : string) (data : V) (ts : Z)
  : ResourceCache :=
  {| _cache := <[key := (data, ts)]> (_cache self); _ttl := _ttl self |}.

(** Lines 35-38: [data = fetcher()], then
    [self._cache[key] = (data, datetime.now())]: the clock is read again,
    after the fetcher has returned.  An exception of the fetcher leaves
    the cache as it was. *)
Definition fetch_and_store (self : ResourceCache) (key : string)
    (fetcher : callable) (s : state) : result V * ResourceCache * state :=
  let '(r, s1) := call fetcher s in
  match r with
  | Ok data => (Ok data, store self key data (now (world s1)), s1)
  | Raise e => (Raise e, self, s1)
  end.

Definition get_or_fetch (self : ResourceCache) (key : string)
    (fetcher : callable) (s : state) : result V * ResourceCache * state :=
  match _cache self !! key with
  | Some (data, timestamp) =>
      if now (world s) - timestamp <? _ttl self
      then (Ok data, self, s)
      else fetch_and_store self key fetcher s
  | None => fetch_and_store self key fetcher s
  end.

(** [if key:] is false for [None] and for the empty string. *)
Definition invalidate (self : ResourceCache) (key : option string)
  : ResourceCache :=
  match key with
  | Some k =>
      if str_truthy k
      then {| _cache := delete k (_cache self); _ttl := _ttl self |}
      else {| _cache := ∅; _ttl := _ttl self |}
  | None => {| _cache := ∅; _ttl := _ttl self |}
  end.

Definition is_cached (self : ResourceCache) (key : string) (s : state) : bool :=
  match _cache self !! key with
  | None => false
  | Some (_, timestamp) => now (world s) - timestamp <? _ttl self
  end.

End WithWorld.

Arguments ResourceCache V : clear implicits.
Arguments state W : clear implicits.
Arguments callable V W : clear implicits.

End Cache.

(** ** Strings, as the file-system code uses them *)

Module Str.

Definition eqb_ascii (a b : ascii) : bool := Ascii.eqb a b.

(** Membership of a character in a class given by its members. *)
Definition in_class (cls : list ascii) (c : ascii) : bool :=
  existsb (eqb_ascii c) cls.

(** [s.replace(old, new)] for a one-character [old]. *)
Fixpoint replace (old : ascii) (new : string) (s : string) : string :=
  match s with
  | EmptyString => EmptyString
  | String c s' =>
      if eqb_ascii c old then new +:+ replace old new s'
      else String c (replace old new s')
  end.

(** [re.sub('[...]', repl, s)] for a pattern that is one character class. *)
Fixpoint sub_class (cls : list ascii) (repl : string) (s : string) : string :=
  match s with
  | EmptyString => EmptyString
  | String c s' =>
      if in_class cls c then repl +:+ sub_class cls repl s'
      else String c (sub_class cls repl s')
  end.

(** [c in s] for a character. *)
Fixpoint contains_char (c : ascii) (s : string) : bool :=
  match s with
  | EmptyString => false
  | String d s' => eqb_ascii d c || contains_char c s'
  end.

(** [s.startswith(p)] and, on success, what follows the prefix. *)
Fixpoint strip_prefix (p s : string) : option string :=
  match p, s with
  | EmptyString, _ => Some s
  | String a p', String b s' =>
      if eqb_ascii a b then strip_prefix p' s' else None
  | String _ _, EmptyString => None
  end.

(** [needle in s] for strings. *)
Fixpoint contains (needle s : string) : bool :=
  match strip_prefix needle s with
  | Some _ => true
  | None =>
      match s with
      | EmptyString => false
      | String _ s' => contains needle s'
      end
  end.

(** [s.split(sep)] for a one-character separator. *)
Fixpoint split (sep : ascii) (s : string) : list string :=
  match s with
  | EmptyString => [EmptyString]
  | String c s' =>
      if eqb_ascii c sep then EmptyString :: split sep s'
      else match split sep s' with
           | h :: t => String c h :: t
           | [] => [String c EmptyString]
           end
  end.

(** ASCII lower case, which is what [re.IGNORECASE] and [str.lower] do on
    the letters of the patterns used here. *)
Definition lower_char (c : ascii) : ascii :=
  let n := nat_of_ascii c in
  if (65 <=? n)%nat && (n <=? 90)%nat then ascii_of_nat (n + 32) else c.

Fixpoint lower (s : string) : string :=
  match s with
  | EmptyString => EmptyString
  | String c s' => String (lower_char c) (lower s')
  end.

Definition is_digit (c : ascii) : bool :=
  let n := nat_of_ascii c in (48 <=? n)%nat && (n <=? 57)%nat.

(** [\s] on ASCII text: space, \t \n \v \f \r and the separators
    0x1c-0x1f. *)
Definition is_space (c : ascii) : bool :=
  let n := nat_of_ascii c in
  (n =? 32)%nat || ((9 <=? n)%nat && (n <=? 13)%nat)
  || ((28 <=? n)%nat && (n <=? 31)%nat).

(** [s[:n]] and [s[n:]] for [0 <= n]. *)
Fixpoint take (n : nat) (s : string) : string :=
  match n, s with
  | S n', String c s' => String c (take n' s')
  | _, _ => EmptyString
  end.

Fixpoint drop (n : nat) (s : string) : string :=
  match n, s with
  | S n', String _ s' => drop n' s'
  | _, _ => s
  end.

(** [int(s)] for a string of ASCII digits. *)
Definition digit_val (c : ascii) : Z := Z.of_nat (nat_of_ascii c) - 48.

Fixpoint int_acc (acc : Z) (s : string) : Z :=
  match s with
  | EmptyString => acc
  | String c s' => int_acc (10 * acc + digit_val c) s'
  end.

Definition int (s : string) : Z := int_acc 0 s.

Definition digit_char (d : Z) : ascii := ascii_of_nat (Z.to_nat (48 + d mod 10)).

(** ['%0*d' % (width, n)] for [0 <= n]: the last [width] decimal digits
    suffice for the numbers printed here. *)
Fixpoint zfill (width : nat) (n : Z) (acc : string) : string :=
  match width with
  | O => acc
  | S w => zfill w (n / 10) (String (digit_char n) acc)
  end.

End Str.

(** ** A backtracking matcher for the regular expressions of the code *)

Module Re.

(** The constructs that occur in the patterns of [filesystem.py] and in the
    patterns that [_strptime] builds from a format.  [Plus] and [Rep] are
    the greedy [c+] and [c{lo,hi}] over a character class [c]; [Opt] is the
    greedy [r?]; [Group] is a capturing group; [Eos] is [$]. *)
Inductive regex : Type :=
  | Eps
  | Lit (s : string)
  | Cls (p : ascii -> bool)
  | Seq (r1 r2 : regex)
  | Alt (r1 r2 : regex)
  | Opt (r : regex)
  | Plus (p : ascii -> bool)
  | Rep (p : ascii -> bool) (lo hi : nat)
  | Group (r : regex)
  | Eos.

(** Number of capturing groups, for the groups of a branch not taken. *)
Fixpoint ngroups (r : regex) : nat :=
  match r with
  | Seq r1 r2 | Alt r1 r2 => (ngroups r1 + ngroups r2)%nat
  | Opt r => ngroups r
  | Group r => S (ngroups r)
  | _ => O
  end.

(** Length of the longest prefix of [s] inside the class. *)
Fixpoint run (p : ascii -> bool) (s : string) : nat :=
  match s with
  | String c s' => if p c then S (run p s') else O
  | EmptyString => O
  end.

(** The suffixes of [s] after [hi], [hi - 1], ..., [lo] characters: the
    order in which a greedy repetition is backtracked. *)
Fixpoint countdown (lo : nat) (n : nat) (s : string) : list string :=
  match n with
  | O => if (lo =? 0)%nat then [s] else []
  | S n' =>
      if (lo <=? n)%nat then Str.drop n s :: countdown lo n' s else []
  end.

(** A match is the list of captured groups, in the order of their opening
    parentheses ([None] for a group that took no part), and the rest of the
    subject.  [matches ic r s] lists the matches of [r] at the start of [s]
    in the order a backtracking engine finds them; [ic] is [re.IGNORECASE]. *)
Definition mtch : Type := list (option string) * string.

Definition consumed (s rest : string) : string :=
  Str.take (String.length s - String.length rest) s.

Fixpoint matches (ic : bool) (r : regex) (s : string) : list mtch :=
  match r with
  | Eps => [([], s)]
  | Lit l =>
      let fold := fun x => if ic then Str.lower x else x in
      if String.eqb (fold l) (fold (Str.take (String.length l) s))
      then [([], Str.drop (String.length l) s)] else []
  | Cls p =>
      match s with
      | String c s' => if p c then [([], s')] else []
      | EmptyString => []
      end
  | Seq r1 r2 =>
      flat_map (fun m1 : mtch =>
        List.map (fun m2 : mtch => ((fst m1 ++ fst m2)%list, snd m2))
                 (matches ic r2 (snd m1)))
        (matches ic r1 s)
  | Alt r1 r2 =>
      (List.map (fun m : mtch => ((fst m ++ repeat None (ngroups r2))%list, snd m))
                (matches ic r1 s)
       ++ List.map (fun m : mtch => ((repeat None (ngroups r1) ++ fst m)%list, snd m))
                   (matches ic r2 s))%list
  | Opt r1 =>
      (matches ic r1 s ++ [(repeat None (ngroups r1), s)])%list
  | Plus p =>
      List.map (fun rest => ([], rest)) (countdown 1 (run p s) s)
  | Rep p lo hi =>
      List.map (fun rest => ([], rest)) (countdown lo (Nat.min hi (run p s)) s)
  | Group r1 =>
      List.map (fun m : mtch => (Some (consumed s (snd m)) :: fst m, snd m))
               (matches ic r1 s)
  | Eos =>
      match s with
      | EmptyString => [([], s)]
      | String c EmptyString => if Str.eqb_ascii c "010" then [([], s)] else []
      | _ => []
      end
  end.

(** [re.match(r, s, flags)]: the first match in backtracking order. *)
Definition re_match (ic : bool) (r : regex) (s : string) : option mtch :=
  head (matches ic r s).

(** Alternation of literals, [a|b|c]. *)
Fixpoint alt_lits (l : list string) : regex :=
  match l with
  | [] => Cls (fun _ => false)
  | [a] => Lit a
  | a :: l' => Alt (Lit a) (alt_lits l')
  end.

End Re.

(** ** utils/filesystem.py *)

Module Filesystem.

(** *** [pathlib.Path] on a POSIX system *)

(** A path is the tuple of its [parts]: the root ("/" or "//") if it has
    one, then the components.  Empty components and "." are dropped when a
    string is parsed; ".." is kept. *)
Definition Path : Type := list string.

Definition is_slash (c : ascii) : bool := Str.eqb_ascii c "/".

Definition kept_component (c : string) : bool :=
  negb (String.eqb c "" || String.eqb c ".").

Definition Path_of (s : string) : Path :=
  let comps := List.filter kept_component (Str.split "/" s) in
  match Re.run is_slash s with
  | O => comps
  | 2%nat => "//" :: comps
  | _ => "/" :: comps
  end.

Definition is_absolute (s : string) : bool :=
  match s with String c _ => is_slash c | EmptyString => false end.

(** [p / key]: an absolute right operand replaces the left one. *)
Definition truediv (p : Path) (key : string) : Path :=
  if is_absolute key then Path_of key else (p ++ Path_of key)%list.

Notation "p // key" := (truediv p key) (at level 40, left associativity).

(** *** Journal page names *)

Definition abbr_months : list string :=
  ["Jan"; "Feb"; "Mar"; "Apr"; "May"; "Jun";
   "Jul"; "Aug"; "Sep"; "Oct"; "Nov"; "Dec"].

Definition full_months : list string :=
  ["January"; "February"; "March"; "April"; "May"; "June"; "July";
   "August"; "September"; "October"; "November"; "December"].

Definition ordinals : list string := ["st"; "nd"; "rd"; "th"].

Import Re.

(** The two [journal_patterns].  [re.match] anchors at the start, so the
    leading [^] adds nothing. *)
Definition journal_patterns : list regex :=
  [ Seq (Group (alt_lits abbr_months))
     (Seq (Plus Str.is_space)
     (Seq (Rep Str.is_digit 1 2)
     (Seq (Opt (Group (alt_lits ordinals)))
     (Seq (Lit ",")
     (Seq (Plus Str.is_space)
     (Seq (Rep Str.is_digit 4 4) Eos))))));
    Seq (Group (alt_lits full_months))
     (Seq (Plus Str.is_space)
     (Seq (Rep Str.is_digit 1 2)
     (Seq (Lit ",")
     (Seq (Plus Str.is_space)
     (Seq (Rep Str.is_digit 4 4) Eos))))) ].

Definition is_journal_page_name (page_name : string) : bool :=
  existsb (fun pattern =>
             match re_match true pattern page_name with
             | Some _ => true
             | None => false
             end)
          journal_patterns.

(** The pattern of line 88, [(\d+)(st|nd|rd|th)], matched without flags. *)
Definition ordinal_pattern : regex :=
  Seq (Group (Plus Str.is_digit)) (Group (alt_lits ordinals)).

(** [re.sub(r, r'\1', s)] for a pattern [r] that never matches the empty
    string: scan from the left; at a match, emit group 1 and go on after
    the match; elsewhere copy the character.  [skip] counts the characters
    of the last match still to be passed over. *)
Fixpoint sub_group1 (r : regex) (skip : nat) (s : string) : string :=
  match s with
  | EmptyString => EmptyString
  | String c s' =>
      match skip with
      | S k => sub_group1 r k s'
      | O =>
          match re_match false r s with
          | Some (Some g :: _, rest) =>
              g +:+ sub_group1 r (String.length s' - String.length rest) s'
          | _ => String c (sub_group1 r O s')
          end
      end
  end.

(** *** [datetime.strptime] and [strftime], for the directives used *)

Record date : Type := mkDate { year : Z; month : Z; day : Z }.

(** The regular expression that [_strptime] builds for a directive: the
    month names of the C locale in lower case ([%B] sorted by decreasing
    length), the day and the four-digit year. *)
Definition directive_regex (d : ascii) : option regex :=
  if Str.eqb_ascii d "b" then
    Some (Group (alt_lits (List.map Str.lower abbr_months)))
  else if Str.eqb_ascii d "B" then
    Some (Group (alt_lits
      ["september"; "february"; "november"; "december"; "january";
       "october"; "august"; "march"; "april"; "june"; "july"; "may"]))
  else if Str.eqb_ascii d "d" then
    let c01 := Str.in_class ["0"; "1"]%char in
    let c12 := Str.in_class ["1"; "2"]%char in
    let c19 := fun c => Str.is_digit c && negb (Str.eqb_ascii c "0") in
    Some (Group (Alt (Seq (Lit "3") (Cls c01))
                (Alt (Seq (Cls c12) (Cls Str.is_digit))
                (Alt (Seq (Lit "0") (Cls c19))
                (Alt (Cls c19)
                     (Seq (Lit " ") (Cls c19)))))))
  else if Str.eqb_ascii d "Y" then
    Some (Group (Rep Str.is_digit 4 4))
  else None.

(** The format turned into a pattern and the list of its directives: a run
    of white space becomes [\s+], any other character stands for itself. *)
Fixpoint pattern (in_ws : bool) (fmt : string) : option (regex * list ascii) :=
  match fmt with
  | EmptyString => Some (Eps, [])
  | String c rest =>
      if Str.eqb_ascii c "%" then
        match rest with
        | String d rest' =>
            match directive_regex d, pattern false rest' with
            | Some r, Some (r', ds) => Some (Seq r r', d :: ds)
            | _, _ => None
            end
        | EmptyString => None
        end
      else if Str.is_space c then
        if in_ws then pattern true rest
        else match pattern true rest with
             | Some (r', ds) => Some (Seq (Plus Str.is_space) r', ds)
             | None => None
             end
      else match pattern false rest with
           | Some (r', ds) => Some (Seq (Lit (String c EmptyString)) r', ds)
           | None => None
           end
  end.

Fixpoint index_of (x : string) (l : list string) (i : Z) : option Z :=
  match l with
  | [] => None
  | y :: l' => if String.eqb x y then Some i else index_of x l' (i + 1)
  end.

(** What a captured group contributes to the date being built. *)
Definition convert (d : ascii) (found : string) (acc : date) : date :=
  if Str.eqb_ascii d "b" then
    match index_of (Str.lower found) (List.map Str.lower abbr_months) 1 with
    | Some m => mkDate (year acc) m (day acc)
    | None => acc
    end
  else if Str.eqb_ascii d "B" then
    match index_of (Str.lower found) (List.map Str.lower full_months) 1 with
    | Some m => mkDate (year acc) m (day acc)
    | None => acc
    end
  else if Str.eqb_ascii d "d" then
    mkDate (year acc) (month acc)
           (Str.int (Str.replace " " "" found))
  else if Str.eqb_ascii d "Y" then
    mkDate (Str.int found) (month acc) (day acc)
  else acc.

Fixpoint convert_all (ds : list ascii) (caps : list (option string))
    (acc : date) : date :=
  match ds, caps with
  | d :: ds', Some found :: caps' => convert_all ds' caps' (convert d found acc)
  | d :: ds', None :: caps' => convert_all ds' caps' acc
  | _, _ => acc
  end.

Definition is_leap (y : Z) : bool :=
  (y mod 4 =? 0) && (negb (y mod 100 =? 0) || (y mod 400 =? 0)).

Definition days_in_month (y m : Z) : Z :=
  if m =? 2 then (if is_leap y then 29 else 28)
  else if (m =? 4) || (m =? 6) || (m =? 9) || (m =? 11) then 30
  else 31.

(** The range check of the [date] constructor. *)
Definition valid_date (d : date) : bool :=
  (1 <=? year d) && (year d <=? 9999)
  && (1 <=? month d) && (month d <=? 12)
  && (1 <=? day d) && (day d <=? days_in_month (year d) (month d)).

(** [datetime.strptime(data_string, format)]: the pattern is matched with
    [re.IGNORECASE]; the first match has to reach the end of the string. *)
Definition strptime (data_string format : string) : result date :=
  match pattern false format with
  | None => Raise (ValueError "bad directive in format")
  | Some (r, ds) =>
      match re_match true r data_string with
      | None => Raise (ValueError "time data does not match format")
      | Some (found, rest) =>
          match rest with
          | String _ _ => Raise (ValueError "unconverted data remains")
          | EmptyString =>
              let d := convert_all ds found (mkDate 1900 1 1) in
              if valid_date d then Ok d
              else Raise (ValueError "day is out of range for month")
          end
      end
  end.

(** [d.strftime(format)] with the directives [%Y], [%m] and [%d]; the year
    is printed with four digits. *)
Fixpoint strftime (d : date) (format : string) : string :=
  match format with
  | EmptyString => EmptyString
  | String c rest =>
      if Str.eqb_ascii c "%" then
        match rest with
        | String k rest' =>
            (if Str.eqb_ascii k "Y" then Str.zfill 4 (year d) ""
             else if Str.eqb_ascii k "m" then Str.zfill 2 (month d) ""
             else if Str.eqb_ascii k "d" then Str.zfill 2 (day d) ""
             else String c (String k EmptyString))
            +:+ strftime d rest'
        | EmptyString => String c EmptyString
        end
      else String c (strftime d rest)
  end.

(** *** Page-name resolution *)

Section Resolver.

(** [path_exists p] is [p.exists()] on the file system as it is during
    the call. *)
Variable path_exists : Path -> bool.

(** [os.path.exists(s)]: false for the empty string, otherwise the same
    question as [Path(s).exists()]. *)
Definition os_path_exists (s : string) : bool :=
  Py.str_truthy s && path_exists (Path_of s).

Definition illegal_chars : list ascii :=
  ["<"; ">"; ":"; "034"; "|"; "?"; "*"]%char.

Definition safe_name (page_name : string) : string :=
  let safe_name := Str.replace "/" "___" page_name in
  Str.sub_class illegal_chars "_" safe_name.

Definition journal_formats : list string :=
  ["%b %d, %Y"; "%B %d, %Y"; "%b %dst, %Y"; "%b %dnd, %Y";
   "%b %drd, %Y"; "%b %dth, %Y"].

(** The [for fmt in ...] loop: a [ValueError] of one format goes on to
    the next one; any other exception leaves the loop. *)
Fixpoint try_formats (journal_name graph_path : string)
    (fmts : list string) : result (option Path) :=
  match fmts with
  | [] => Ok None
  | fmt :: fmts' =>
      let cleaned_name := sub_group1 ordinal_pattern 0 journal_name in
      match strptime cleaned_name fmt with
      | Ok date_obj =>
          let filename := strftime date_obj "%Y_%m_%d.md" in
          let journal_path := Path_of graph_path // "journals" // filename in
          if path_exists journal_path then Ok (Some journal_path)
          else try_formats journal_name graph_path fmts'
      | Raise e =>
          if Py.is_ValueError e
          then try_formats journal_name graph_path fmts'
          else Raise e
      end
  end.

(** The outer [except Exception: pass] turns what is left into [None]. *)
Definition convert_journal_name_to_path (journal_name graph_path : string)
  : option Path :=
  match try_formats journal_name graph_path journal_formats with
  | Ok r => r
  | Raise _ => None
  end.

Definition get_page_file_path (page_name graph_path : string) : option Path :=
  if negb (Py.str_truthy graph_path) || negb (os_path_exists graph_path)
  then None
  else
    let page_path := Path_of graph_path // "pages" // (safe_name page_name +:+ ".md") in
    if path_exists page_path then Some page_path
    else
      let journal_path :=
        Path_of graph_path // "journals" // (safe_name page_name +:+ ".md") in
      if path_exists journal_path then Some journal_path
      else if is_journal_page_name page_name then
        match convert_journal_name_to_path page_name graph_path with
        | Some date_path =>
            if path_exists date_path then Some date_path else None
        | None => None
        end
      else None.

End Resolver.

(** The sanitised name described character by character: a slash becomes
    three underscores, a character that a file name may not contain becomes
    one, every other character is kept. *)
Definition sanitize_char (c : ascii) : string :=
  if Str.eqb_ascii c "/" then "___"
  else if Str.in_class illegal_chars c then "_"
  else String c EmptyString.

Fixpoint sanitize (s : string) : string :=
  match s with
  | EmptyString => EmptyString
  | String c s' => sanitize_char c +:+ sanitize s'
  end.

(** A file system given by the list of the paths that exist. *)
Fixpoint path_eqb (p q : Path) : bool :=
  match p, q with
  | [], [] => true
  | a :: p', b :: q' => String.eqb a b && path_eqb p' q'
  | _, _ => false
  end.

Definition on_disk (paths : list Path) (p : Path) : bool :=
  existsb (path_eqb p) paths.

(** *** File metadata *)

Section Metadata.

(** Python floats are not modelled: [float] is their type,
    [round_mb size] is [round(size / 1024 / 1024, 2)] and
    [fromtimestamp_isoformat t] is
    [datetime.fromtimestamp(t).isoformat()], which raises for a time
    stamp that the platform or the [datetime] range cannot represent. *)
Context {float : Type}.
Variable round_mb : Z -> float.
Variable fromtimestamp_isoformat : float -> result string.

Record stat_result : Type := mkStat {
  st_size : Z;
  st_mtime : float;
  st_ctime : float
}.

(** [file_path.stat()]: the result, or the exception it raises. *)
Variable stat : Path -> result stat_result.

Inductive number : Type :=
  | Int (z : Z)
  | Float (f : float).

Record metadata : Type := mkMetadata {
  size : Z;
  size_mb : number;
  modified_time : number;
  created_time : number;
  modified_date : option string;
  created_date : option string;
  exists_ : bool
}.

Definition zeroed : metadata :=
  {| size := 0; size_mb := Int 0; modified_time := Int 0;
     created_time := Int 0; modified_date := None; created_date := None;
     exists_ := false |}.

(** The body of the [try]: the entries of the dictionary are evaluated in
    the order they are written. *)
Definition try_stat (file_path : Path) : result metadata :=
  st <-? stat file_path;
  md <-? fromtimestamp_isoformat (st_mtime st);
  cd <-? fromtimestamp_isoformat (st_ctime st);
  Ok {| size := st_size st;
        size_mb := Float (round_mb (st_size st));
        modified_time := Float (st_mtime st);
        created_time := Float (st_ctime st);
        modified_date := Some md;
        created_date := Some cd;
        exists_ := true |}.

(** [except (OSError, IOError)]: other exceptions propagate. *)
Definition get_file_metadata (file_path : Path) : result metadata :=
  match try_stat file_path with
  | Ok m => Ok m
  | Raise e => if Py.is_OSError e then Ok zeroed else Raise e
  end.

End Metadata.

(** *** Directories and files of a graph *)

(** [str(path)]: the root, if any, then the components joined by
    slashes; the empty path prints as a dot. *)
Fixpoint join_parts (parts : list string) : string :=
  match parts with
  | [] => EmptyString
  | [a] => a
  | a :: rest => a +:+ "/" +:+ join_parts rest
  end.

Definition Path_str (p : Path) : string :=
  match p with
  | [] => "."
  | r :: rest => if is_absolute r then r +:+ join_parts rest else join_parts p
  end.

(** Paths are ordered like the tuples of their parts: the first part that
    differs decides, and a proper prefix comes first. *)
Fixpoint path_compare (p q : Path) : comparison :=
  match p, q with
  | [], [] => Eq
  | [], _ :: _ => Lt
  | _ :: _, [] => Gt
  | a :: p', b :: q' =>
      match String.compare a b with
      | Eq => path_compare p' q'
      | c => c
      end
  end.

Definition path_ltb (p q : Path) : bool :=
  match path_compare p q with Lt => true | _ => false end.

(** [sorted(files)]: ascending, using only [<] as Python does. *)
Fixpoint insert_path (x : Path) (l : list Path) : list Path :=
  match l with
  | [] => [x]
  | y :: l' => if path_ltb y x then y :: insert_path x l' else x :: l
  end.

Definition sorted_paths (l : list Path) : list Path :=
  fold_right insert_path [] l.

Section Directories.

Variable path_exists : Path -> bool.

(** [dir_path.glob(pattern)]: the matches, each given by its parts below
    [dir_path]. *)
Variable glob : Path -> string -> list (list string).

Definition glob_paths (dir_path : Path) (pattern : string) : list Path :=
  List.map (fun rel => (dir_path ++ rel)%list) (glob dir_path pattern).

Definition standard_directories (graph_dir : Path) : list (string * Path) :=
  [ ("root", graph_dir);
    ("pages", graph_dir // "pages");
    ("journals", graph_dir // "journals");
    ("assets", graph_dir // "assets");
    ("logseq", graph_dir // ".logseq") ].

Definition get_graph_directories (graph_path : string)
  : list (string * Path) :=
  let graph_dir := Path_of graph_path in
  List.filter (fun item => path_exists (snd item))
              (standard_directories graph_dir).

Definition scan_graph_files (graph_path extension : string) : list Path :=
  let graph_dir := Path_of graph_path in
  let files :=
    fold_left
      (fun files directory =>
         let dir_path := graph_dir // directory in
         if path_exists dir_path
         then (files ++ glob_paths dir_path ("*" +:+ extension))%list
         else files)
      ["pages"; "journals"] [] in
  sorted_paths files.

End Directories.

End Filesystem.

(** ** config.py *)

Module Config.

(** The values an attribute of the configuration object can have. *)
Inductive value : Type :=
  | VNone
  | VStr (s : string)
  | VInt (z : Z)
  | VObject.

(** [int(s)] for an optional sign followed by ASCII digits. *)
Definition all_digits (s : string) : bool :=
  Py.str_truthy s && String.eqb (Str.sub_class
    ["0"; "1"; "2"; "3"; "4"; "5"; "6"; "7"; "8"; "9"]%char "" s) "".

Definition int (s : string) : result Z :=
  match s with
  | String "-" s' =>
      if all_digits s' then Ok (- Str.int s')
      else Raise (ValueError "invalid literal for int()")
  | _ =>
      if all_digits s then Ok (Str.int s)
      else Raise (ValueError "invalid literal for int()")
  end.

(** The class attributes of [Config], in the order of the class body. *)
Record Config : Type := mkConfig {
  LOGSEQ_API_URL : string;
  LOGSEQ_TOKEN : option string;
  LOGSEQ_GRAPH_PATH : option string;
  CACHE_TTL : Z;
  MAX_BATCH_SIZE : Z;
  REQUEST_TIMEOUT : Z
}.

(** The class body, run once at import with the environment [getenv]. *)
Definition class_body (getenv : string -> option string) : result Config :=
  let getenv_default := fun k d => default d (getenv k) in
  ttl <-? int (getenv_default "CACHE_TTL" "300");
  batch <-? int (getenv_default "MAX_BATCH_SIZE" "50");
  timeout <-? int (getenv_default "REQUEST_TIMEOUT" "30");
  Ok {| LOGSEQ_API_URL := getenv_default "LOGSEQ_API_URL" "http://localhost:12315";
        LOGSEQ_TOKEN := getenv "LOGSEQ_TOKEN";
        LOGSEQ_GRAPH_PATH := getenv "LOGSEQ_GRAPH_PATH";
        CACHE_TTL := ttl;
        MAX_BATCH_SIZE := batch;
        REQUEST_TIMEOUT := timeout |}.

Definition of_option (o : option string) : value :=
  match o with Some s => VStr s | None => VNone end.

(** The attributes of the instance [config = Config()], which has no
    instance dictionary of its own: the class attributes and the class
    method [validate]. *)
Definition attributes (c : Config) : list (string * value) :=
  [ ("LOGSEQ_API_URL", VStr (LOGSEQ_API_URL c));
    ("LOGSEQ_TOKEN", of_option (LOGSEQ_TOKEN c));
    ("LOGSEQ_GRAPH_PATH", of_option (LOGSEQ_GRAPH_PATH c));
    ("CACHE_TTL", VInt (CACHE_TTL c));
    ("MAX_BATCH_SIZE", VInt (MAX_BATCH_SIZE c));
    ("REQUEST_TIMEOUT", VInt (REQUEST_TIMEOUT c));
    ("validate", VObject) ].

Fixpoint assoc {A} (k : string) (l : list (string * A)) : option A :=
  match l with
  | [] => None
  | (k', v) :: l' => if String.eqb k k' then Some v else assoc k l'
  end.

(** [obj.name] on an object with the attributes [attrs]. *)
Definition getattr (attrs : list (string * value)) (name : string)
  : result value :=
  match assoc name attrs with
  | Some v => Ok v
  | None => Raise (AttributeError name)
  end.

(** [config.LOGSEQ_GRAPH_PATH] where the code tests it with [if]: the
    path when it is set and not empty. *)
Definition graph_path_of (c : Config) : option string :=
  match LOGSEQ_GRAPH_PATH c with
  | Some p => if Py.str_truthy p then Some p else None
  | None => None
  end.

(** [Config.validate()]: a graph path that is set and not empty has to
    exist. *)
Definition validate (path_exists : Filesystem.Path -> bool) (c : Config)
  : result unit :=
  match LOGSEQ_GRAPH_PATH c with
  | Some p =>
      if Py.str_truthy p && negb (Filesystem.os_path_exists path_exists p)
      then Raise (ValueError ("LOGSEQ_GRAPH_PATH does not exist: " +:+ p))
      else Ok tt
  | None => Ok tt
  end.

End Config.

(** ** resources.py *)

Module Resources.

Import Config.

(** *** Names and f-strings *)

(** The names bound at the top level of [resources.py]. *)
Definition module_globals : list string :=
  ["datetime"; "timedelta"; "Dict"; "List"; "Any"; "Optional";
   "defaultdict"; "Path"; "mcp"; "LogseqAPIClient"; "config";
   "ResourceCache"; "get_page_file_path"; "get_file_metadata";
   "get_graph_directories"; "scan_graph_files"; "is_journal_page_name";
   "log"; "logseq_client"; "cache"; "get_graph_info"; "get_recent_pages";
   "get_recent_journals"; "get_templates"; "get_graph_structure";
   "__all__"; "__name__"; "__doc__"; "__file__"; "__package__";
   "__spec__"; "__loader__"; "__builtins__"].

(** The functions and constants of the [builtins] module; its other names
    are the exception classes, which start with a capital letter. *)
Definition builtins : list string :=
  ["abs"; "aiter"; "all"; "anext"; "any"; "ascii"; "bin"; "bool";
   "breakpoint"; "bytearray"; "bytes"; "callable"; "chr"; "classmethod";
   "compile"; "complex"; "delattr"; "dict"; "dir"; "divmod"; "enumerate";
   "eval"; "exec"; "filter"; "float"; "format"; "frozenset"; "getattr";
   "globals"; "hasattr"; "hash"; "help"; "hex"; "id"; "input"; "int";
   "isinstance"; "issubclass"; "iter"; "len"; "list"; "locals"; "map";
   "max"; "memoryview"; "min"; "next"; "object"; "oct"; "open"; "ord";
   "pow"; "print"; "property"; "range"; "repr"; "reversed"; "round";
   "set"; "setattr"; "slice"; "sorted"; "staticmethod"; "str"; "sum";
   "super"; "tuple"; "type"; "vars"; "zip"; "__import__"; "True"; "False";
   "None"; "Ellipsis"; "NotImplemented"; "__debug__"; "copyright";
   "credits"; "license"; "exit"; "quit"].

Definition bound (name : string) (names : list string) : bool :=
  existsb (String.eqb name) names.

(** Reading a name inside a function that does not assign it: the local
    frame (which holds the parameters and, here, the nested [def]), then
    the module globals, then the builtins.  The locals of a nested function
    are not part of the chain. *)
Definition load_name (locals : list (string * value)) (name : string)
  : result value :=
  match assoc name locals with
  | Some v => Ok v
  | None =>
      if bound name module_globals || bound name builtins then Ok VObject
      else Raise (NameError name)
  end.

(** [format(v, '')], what an f-string field prints. *)
Definition format (v : value) : string :=
  match v with
  | VNone => "None"
  | VStr s => s
  | VInt z => NilZero.string_of_int (Z.to_int z)
  | VObject => "<object>"
  end.

(** *** The two resources with a parameterised cache key *)

Section Recent.

Context {V W : Type}.
Variable now : W -> Z.

(** [get_recent_pages]: the nested [fetch_recent_pages] (whose frame holds
    [limit = 20]) is only defined, not called, before the key is built in
    the frame of [get_recent_pages] itself. *)
Definition get_recent_pages (fetch_recent_pages : Cache.callable V W)
    (cache : Cache.ResourceCache V) (s : Cache.state W)
  : result V * Cache.ResourceCache V * Cache.state W :=
  let locals := [("fetch_recent_pages", VObject)] in
  match load_name locals "limit" with
  | Raise e => (Raise e, cache, s)
  | Ok limit =>
      Cache.get_or_fetch now cache ("recent_pages_" +:+ format limit)
                         fetch_recent_pages s
  end.

Definition get_recent_journals (fetch_recent_journals : Cache.callable V W)
    (cache : Cache.ResourceCache V) (s : Cache.state W)
  : result V * Cache.ResourceCache V * Cache.state W :=
  let locals := [("fetch_recent_journals", VObject)] in
  match load_name locals "days" with
  | Raise e => (Raise e, cache, s)
  | Ok days =>
      Cache.get_or_fetch now cache ("recent_journals_" +:+ format days)
                         fetch_recent_journals s
  end.

End Recent.

(** *** The graph-structure analysis *)

(** The fields of a page and of a block that the analysis reads:
    [page.get('name', '')], the truth value of [page.get('journal?', False)]
    and [block.get('content', '')]. *)
Record page : Type := mkPage { name : option string; journal : bool }.
Record block : Type := mkBlock { content : option string }.

(** [s.rsplit('/', 1)[0]] when [s] contains a slash: what precedes the
    last one. *)
Fixpoint before_last_slash (s : string) : option string :=
  match s with
  | EmptyString => None
  | String c s' =>
      match before_last_slash s' with
      | Some h => Some (String c h)
      | None => if Str.eqb_ascii c "/" then Some EmptyString else None
      end
  end.

(** The bucket a page name is filed under. *)
Definition namespace_of (page_name : string) : string :=
  match before_last_slash page_name with
  | Some ns => ns
  | None => "_root"
  end.

(** A [dict] keeps its keys in the order of their first insertion. *)
Fixpoint dict_set {A} (d : list (string * A)) (k : string) (v : A)
  : list (string * A) :=
  match d with
  | [] => [(k, v)]
  | (k', v') :: d' =>
      if String.eqb k k' then (k, v) :: d' else (k', v') :: dict_set d' k v
  end.

(** [d[k].append(v)] on a [defaultdict(list)]. *)
Definition dict_append (d : list (string * list string)) (k v : string)
  : list (string * list string) :=
  dict_set d k (default [] (assoc k d) ++ [v])%list.

(** The page names filed under the bucket [k], in their order, and the
    number of names that a dictionary of buckets holds. *)
Definition group (k : string) (names : list string) : list string :=
  List.filter (fun n => String.eqb (namespace_of n) k) names.

Definition bucket_sizes (d : list (string * list string)) : nat :=
  list_sum (List.map (fun item => List.length (snd item)) d).

(** A bucket after more names have been appended to it. *)
Definition merge (o : option (list string)) (g : list string)
  : option (list string) :=
  match o, g with
  | None, [] => None
  | _, _ => Some (default [] o ++ g)%list
  end.

(** [sorted(l, key=lambda x: x[1], reverse=True)]: descending by count,
    items of equal count in their original order. *)
Fixpoint insert_desc (x : string * nat) (l : list (string * nat))
  : list (string * nat) :=
  match l with
  | [] => [x]
  | y :: l' =>
      if (snd y <=? snd x)%nat then x :: l else y :: insert_desc x l'
  end.

Definition sorted_by_count (l : list (string * nat)) : list (string * nat) :=
  fold_right insert_desc [] l.

(** The order of the ranking: no later item has a larger count. *)
Definition by_count_desc (x y : string * nat) : Prop := (snd y <= snd x)%nat.

(** [sorted(pages)] on strings. *)
Fixpoint insert_asc (x : string) (l : list string) : list string :=
  match l with
  | [] => [x]
  | y :: l' => if String.leb x y then x :: l else y :: insert_asc x l'
  end.

Definition sorted (l : list string) : list string :=
  fold_right insert_asc [] l.

(** [l[:stop]]: a negative stop counts from the end. *)
Definition slice_to {A} (l : list A) (stop : value) : result (list A) :=
  match stop with
  | VNone => Ok l
  | VInt n =>
      Ok (if n <? 0 then take (List.length l - Z.to_nat (- n)) l
          else take (Z.to_nat n) l)
  | _ => Raise (TypeError "slice indices must be integers or None")
  end.

Fixpoint map_result {A B} (f : A -> result B) (l : list A) : result (list B) :=
  match l with
  | [] => Ok []
  | x :: l' => y <-? f x; ys <-? map_result f l'; Ok (y :: ys)
  end.

(** The three accumulators of the loop over the pages, and the names of
    the pages for which the handler logged an error. *)
Record analysis : Type := mkAnalysis {
  namespaces : list (string * list string);
  orphaned_pages : list string;
  page_link_counts : list (string * nat);
  logged : list string
}.

Record namespace_info : Type := mkNamespace {
  page_count : nat;
  pages : list string
}.

Record structure : Type := mkStructure {
  total_pages : nat;
  journal_pages : nat;
  regular_pages : nat;
  namespace_summary : list (string * namespace_info);
  root_pages : nat;
  orphaned_count : nat;
  orphaned_listed : list string;
  most_linked_pages : list (string * nat)
}.

Section Graph.

(** The remote client.  A reply that is not a list makes [len] or the
    iteration raise, which is an exception inside the [try] as well. *)
Context {ref : Type}.
Variable get_all_pages : result (list page).
Variable get_page_linked_references : string -> result (list ref).
Variable get_page_blocks : string -> result (list block).

(** The attributes of the [config] object. *)
Variable config : list (string * value).

Definition has_outgoing (blocks : list block) : bool :=
  existsb (fun b => Str.contains "[[" (default "" (content b))) blocks.

(** Lines 262-272, the body of the [try]: the state it leaves behind and
    the exception that ended it, if any. *)
Definition try_references (page_name : string) (a : analysis)
  : analysis * option exn :=
  match get_page_linked_references page_name with
  | Raise e => (a, Some e)
  | Ok refs =>
      let link_count := List.length refs in
      let a1 := {| namespaces := namespaces a;
                   orphaned_pages := orphaned_pages a;
                   page_link_counts :=
                     dict_set (page_link_counts a) page_name link_count;
                   logged := logged a |} in
      if (link_count =? 0)%nat then
        match get_page_blocks page_name with
        | Raise e => (a1, Some e)
        | Ok blocks =>
            if negb (has_outgoing blocks) then
              ({| namespaces := namespaces a1;
                  orphaned_pages := (orphaned_pages a1 ++ [page_name])%list;
                  page_link_counts := page_link_counts a1;
                  logged := logged a1 |}, None)
            else (a1, None)
        end
      else (a1, None)
  end.

(** One iteration of [for page in all_pages]. *)
Definition process_page (a : analysis) (p : page) : analysis :=
  let page_name := default "" (name p) in
  let namespace :=
    match before_last_slash page_name with
    | Some ns => ns
    | None => "_root"
    end in
  let a0 := {| namespaces := dict_append (namespaces a) namespace page_name;
               orphaned_pages := orphaned_pages a;
               page_link_counts := page_link_counts a;
               logged := logged a |} in
  match try_references page_name a0 with
  | (a1, None) => a1
  | (a1, Some e) =>
      {| namespaces := namespaces a1;
         orphaned_pages := orphaned_pages a1;
         page_link_counts := page_link_counts a1;
         logged := (logged a1 ++ [page_name])%list |}
  end.

Definition empty_analysis : analysis :=
  {| namespaces := []; orphaned_pages := [];
     page_link_counts := []; logged := [] |}.

Definition analyse (all_pages : list page) : analysis :=
  fold_left process_page all_pages empty_analysis.

(** The page names in the order of iteration. *)
Definition page_names (all_pages : list page) : list string :=
  List.map (fun p => default "" (name p)) all_pages.

(** What the client answers for a page name decides its fate: orphaned
    when there are no linked references and no block has a link marker;
    failing when a call inside the [try] raises. *)
Definition is_orphan (page_name : string) : bool :=
  match get_page_linked_references page_name with
  | Ok refs =>
      (List.length refs =? 0)%nat
      && match get_page_blocks page_name with
         | Ok blocks => negb (has_outgoing blocks)
         | Raise _ => false
         end
  | Raise _ => false
  end.

Definition fails (page_name : string) : bool :=
  match get_page_linked_references page_name with
  | Ok refs =>
      (List.length refs =? 0)%nat
      && match get_page_blocks page_name with
         | Ok _ => false
         | Raise _ => true
         end
  | Raise _ => true
  end.

Definition summarise_namespace (item : string * list string)
  : result (string * namespace_info) :=
  stop <-? getattr config "MAX_PAGES_PER_NAMESPACE";
  listed <-? slice_to (sorted (snd item)) stop;
  Ok (fst item, {| page_count := List.length (snd item); pages := listed |}).

Definition fetch_graph_structure : result structure :=
  all_pages <-? get_all_pages;
  let a := analyse all_pages in
  stop <-? getattr config "MAX_LINKED_PAGES";
  most_linked <-? slice_to (sorted_by_count (page_link_counts a)) stop;
  summary <-? map_result summarise_namespace
    (List.filter (fun item => negb (String.eqb (fst item) "_root"))
                 (namespaces a));
  stop' <-? getattr config "MAX_ORPHANED_PAGES";
  orphans <-? slice_to (orphaned_pages a) stop';
  Ok {| total_pages := List.length all_pages;
        journal_pages := List.length (List.filter journal all_pages);
        regular_pages :=
          List.length (List.filter (fun p => negb (journal p)) all_pages);
        namespace_summary := summary;
        root_pages := List.length (default [] (assoc "_root" (namespaces a)));
        orphaned_count := List.length (orphaned_pages a);
        orphaned_listed := orphans;
        most_linked_pages := most_linked |}.

End Graph.

End Resources.

(** ** resources.py: the fetcher of the recent pages *)

Module RecentPages.

Import Config.

Section Fetch.

Context {float : Type}.
Variable round_mb : Z -> float.
Variable fromtimestamp_isoformat : float -> result string.
Variable stat : Filesystem.Path -> result (@Filesystem.stat_result float).
Variable path_exists : Filesystem.Path -> bool.

(** [a < b] on the numbers that serve as sort keys. *)
Variable number_lt : @Filesystem.number float -> @Filesystem.number float -> bool.

Variable get_all_pages : result (list Resources.page).
Variable config : Config.

(** [{**page, 'file_path': ..., 'modified_time': ..., ...}]. *)
Record page_info : Type := mkInfo {
  page : Resources.page;
  file_path : string;
  modified_time : @Filesystem.number float;
  modified_date : option string;
  size_mb : @Filesystem.number float
}.

(** What the fetcher returns: the pages as the client gave them, or pages
    with the data of their files. *)
Inductive recent_page : Type :=
  | Plain (p : Resources.page)
  | WithFile (i : page_info).

Definition sort_key (x : page_info) : @Filesystem.number float :=
  modified_time x.

(** [l.sort(key=..., reverse=True)]: descending, items of equal key in
    their original order. *)
Fixpoint insert_recent (x : page_info) (l : list page_info) : list page_info :=
  match l with
  | [] => [x]
  | y :: l' =>
      if number_lt (sort_key x) (sort_key y) then y :: insert_recent x l'
      else x :: l
  end.

Definition sort_recent (l : list page_info) : list page_info :=
  fold_right insert_recent [] l.

(** One iteration of the loop over the pages: the page is kept when its
    file is found and its metadata say that it exists. *)
Definition with_timestamp (graph_path : string) (p : Resources.page)
  : result (list page_info) :=
  match Filesystem.get_page_file_path path_exists
          (default "" (Resources.name p)) graph_path with
  | Some file_path =>
      metadata <-? Filesystem.get_file_metadata round_mb
                     fromtimestamp_isoformat stat file_path;
      if Filesystem.exists_ metadata
      then Ok [ {| page := p;
                   file_path := Filesystem.Path_str file_path;
                   modified_time := Filesystem.modified_time metadata;
                   modified_date := Filesystem.modified_date metadata;
                   size_mb := Filesystem.size_mb metadata |} ]
      else Ok []
  | None => Ok []
  end.

Fixpoint with_timestamps (graph_path : string) (pages : list Resources.page)
  : result (list page_info) :=
  match pages with
  | [] => Ok []
  | p :: pages' =>
      here <-? with_timestamp graph_path p;
      rest <-? with_timestamps graph_path pages';
      Ok (here ++ rest)%list
  end.

Definition limit : nat := 20.

(** The messages passed to [log] and the value returned or the exception
    raised. *)
Definition fetch_recent_pages : list string * result (list recent_page) :=
  match graph_path_of config with
  | None =>
      (["Warning: LOGSEQ_GRAPH_PATH not configured, returning pages without timestamps"],
       pages <-? get_all_pages;
       Ok (List.map Plain (take limit pages)))
  | Some graph_path =>
      ([],
       pages <-? get_all_pages;
       pages_with_timestamps <-? with_timestamps graph_path pages;
       Ok (List.map WithFile (take limit (sort_recent pages_with_timestamps))))
  end.

(** An entry is resolved when it belongs to one of the pages, its file
    was found by [get_page_file_path] and exists, and its fields are those
    of the [stat] of that file. *)
Definition resolved (graph_path : string) (pages : list Resources.page)
    (i : page_info) : Prop :=
  In (page i) pages
  /\ exists fp st md,
       Filesystem.get_page_file_path path_exists
         (default "" (Resources.name (page i))) graph_path = Some fp
       /\ path_exists fp = true
       /\ file_path i = Filesystem.Path_str fp
       /\ stat fp = Ok st
       /\ modified_time i = Filesystem.Float (Filesystem.st_mtime st)
       /\ size_mb i = Filesystem.Float (round_mb (Filesystem.st_size st))
       /\ modified_date i = Some md
       /\ fromtimestamp_isoformat (Filesystem.st_mtime st) = Ok md.

(** The order of the result: no entry is older than the one after it. *)
Definition newest_first (x y : page_info) : Prop :=
  number_lt (modified_time x) (modified_time y) = false.

End Fetch.

End RecentPages.

(** ** resources.py: the fetcher of the graph information *)

Module GraphInfo.

Import Config.

Section Fetch.

Context {float : Type}.
Variable round_mb : Z -> float.
Variable fromtimestamp_isoformat : float -> result string.
Variable stat : Filesystem.Path -> result (@Filesystem.stat_result float).
Variable path_exists : Filesystem.Path -> bool.
Variable glob : Filesystem.Path -> string -> list (list string).

(** The reply of [get_current_graph()]: a dictionary with values of some
    type [X], or something that is not a dictionary. *)
Context {X : Type}.
Variable get_current_graph : result (option (list (string * X))).
Variable config : Config.

Record file_stats : Type := mkStats {
  page_count : nat;
  journal_count : nat;
  total_size_mb : float;
  graph_path : string
}.

Inductive field : Type :=
  | Remote (x : X)
  | FileStats (f : file_stats)
  | ApiUrl (s : string)
  | CacheTtl (z : Z).

(** [total_size += metadata.get('size', 0)] over the files, in order. *)
Fixpoint add_sizes (total_size : Z) (files : list Filesystem.Path)
  : result Z :=
  match files with
  | [] => Ok total_size
  | file :: files' =>
      metadata <-? Filesystem.get_file_metadata round_mb
                     fromtimestamp_isoformat stat file;
      add_sizes (total_size + Filesystem.size metadata) files'
  end.

Definition md_files (directory : option Filesystem.Path)
  : list Filesystem.Path :=
  match directory with
  | Some dir => Filesystem.glob_paths glob dir "*.md"
  | None => []
  end.

(** The [if config.LOGSEQ_GRAPH_PATH:] block, up to the value that is
    stored under ['file_stats']. *)
Definition compute_file_stats (graph_path : string) : result file_stats :=
  let directories := Filesystem.get_graph_directories path_exists graph_path in
  let page_files := md_files (assoc "pages" directories) in
  let journal_files := md_files (assoc "journals" directories) in
  total_size <-? add_sizes 0 (page_files ++ journal_files)%list;
  Ok {| page_count := List.length page_files;
        journal_count := List.length journal_files;
        total_size_mb := round_mb total_size;
        graph_path := graph_path |}.

(** An item assignment on the reply, which has to be a dictionary. *)
Definition setitem (graph_data : option (list (string * field)))
    (k : string) (v : field) : result (option (list (string * field))) :=
  match graph_data with
  | Some d => Ok (Some (Resources.dict_set d k v))
  | None => Raise (TypeError "object does not support item assignment")
  end.

Definition fetch_graph_info : result (option (list (string * field))) :=
  reply <-? get_current_graph;
  let graph_data :=
    option_map (List.map (fun item => (fst item, Remote (snd item)))) reply in
  graph_data <-?
    match graph_path_of config with
    | Some graph_path =>
        stats <-? compute_file_stats graph_path;
        setitem graph_data "file_stats" (FileStats stats)
    | None => Ok graph_data
    end;
  graph_data <-? setitem graph_data "api_url" (ApiUrl (LOGSEQ_API_URL config));
  graph_data <-? setitem graph_data "cache_ttl" (CacheTtl (CACHE_TTL config));
  Ok graph_data.

(** The bytes that a file adds to the total: the size in its metadata,
    which is 0 in the zeroed record. *)
Definition counted_size (file : Filesystem.Path) : Z :=
  match Filesystem.get_file_metadata round_mb fromtimestamp_isoformat stat
          file with
  | Ok metadata => Filesystem.size metadata
  | Raise _ => 0
  end.

Definition sum_sizes (files : list Filesystem.Path) : Z :=
  fold_right (fun file acc => counted_size file + acc) 0 files.

End Fetch.

End GraphInfo.

(** ** Concrete instances used by the examples *)

(** A concrete cache: integer payloads, and a world that is only the
    clock.  [slow_fetcher] takes five seconds and returns 42. *)
Definition clock_now (w : Z) : Z := w.

Definition slow_fetcher : Cache.callable Z Z :=
  fun w => (Ok 42, w + 5000000).

Definition warm_cache : Cache.ResourceCache Z :=
  Cache.store (Cache.__init__ 300) "k" 7 100.

(** A graph on disk for the examples: a namespaced page and one journal
    file. *)
Definition sample_disk : list Filesystem.Path :=
  [ ["graph"]; ["graph"; "pages"]; ["graph"; "journals"];
    ["graph"; "pages"; "Parent___Child.md"];
    ["graph"; "journals"; "2024_12_01.md"] ].

(** Stand-ins for the float operations: time stamps in whole seconds,
    sizes in hundredths of a megabyte, and a date rendering that fails
    beyond the year 9999 as [datetime.fromtimestamp] does. *)
Definition sample_round_mb (size : Z) : Z :=
  (size * 100 + 524288) / 1048576.

Definition sample_isoformat (t : Z) : result string :=
  if (0 <=? t) && (t <? 253402300800)
  then Ok ("@" +:+ NilZero.string_of_int (Z.to_int t))
  else Raise (ValueError "year is out of range").

(** [stat] on [sample_disk]: a path with a NUL character is refused before
    the file system is asked; a missing file is an [OSError]. *)
Definition sample_stat (mtime : Z) (p : Filesystem.Path)
  : result (@Filesystem.stat_result Z) :=
  if existsb (Str.contains_char "000") p
  then Raise (ValueError "embedded null byte")
  else if Filesystem.on_disk sample_disk p
       then Ok (Filesystem.mkStat 2048 mtime mtime)
       else Raise (OSError "No such file or directory").

(** A remote graph for the examples.  ["A"] has neither references nor
    links, ["B"] has no references but a block with a link, ["C"] is
    referenced once, the references of ["D"] cannot be fetched, and ["E"]
    has no references and its blocks cannot be fetched. *)
Definition sample_pages : list Resources.page :=
  List.map (fun n => Resources.mkPage (Some n) false) ["A"; "B"; "C"; "D"; "E"].

Definition sample_references (page_name : string) : result (list unit) :=
  if String.eqb page_name "C" then Ok [tt]
  else if String.eqb page_name "D" then Raise (RuntimeError "HTTP 500")
  else Ok [].

Definition sample_blocks (page_name : string) : result (list Resources.block) :=
  if String.eqb page_name "A" then Ok [Resources.mkBlock (Some "plain text")]
  else if String.eqb page_name "B"
       then Ok [Resources.mkBlock None; Resources.mkBlock (Some "see [[A]]")]
       else Raise (RuntimeError "HTTP 500").

(** The configuration object with the default environment. *)
Definition default_config : Config.Config :=
  {| Config.LOGSEQ_API_URL := "http://localhost:12315";
     Config.LOGSEQ_TOKEN := None;
     Config.LOGSEQ_GRAPH_PATH := None;
     Config.CACHE_TTL := 300;
     Config.MAX_BATCH_SIZE := 50;
     Config.REQUEST_TIMEOUT := 30 |}.

(** [<] on the stand-in numbers. *)
Definition sample_value (n : @Filesystem.number Z) : Z :=
  match n with Filesystem.Int z => z | Filesystem.Float f => f end.

Definition sample_number_lt (a b : @Filesystem.number Z) : bool :=
  sample_value a <? sample_value b.

(** A configuration with the graph path of [sample_disk], and two pages
    of which only the first has a file. *)
Definition sample_config : Config.Config :=
  {| Config.LOGSEQ_API_URL := "http://localhost:12315";
     Config.LOGSEQ_TOKEN := None;
     Config.LOGSEQ_GRAPH_PATH := Some "graph";
     Config.CACHE_TTL := 300;
     Config.MAX_BATCH_SIZE := 50;
     Config.REQUEST_TIMEOUT := 30 |}.

Definition sample_recent : list Resources.page :=
  [ Resources.mkPage (Some "Parent/Child") false;
    Resources.mkPage (Some "Missing") false;
    Resources.mkPage (Some "Dec 1st, 2024") true ].

(** On [sample_disk] only the component [pages] has entries that end in
    [.md]; the pattern is not looked at. *)
Definition sample_glob (dir : Filesystem.Path) (pattern : string)
  : list (list string) :=
  if Filesystem.path_eqb dir ["graph"; "pages"] then [["Parent___Child.md"]]
  else if Filesystem.path_eqb dir ["graph"; "journals"]
       then [["2024_12_01.md"]]
       else [].

Definition sample_recent_result : list (@RecentPages.recent_page Z) :=
  [ RecentPages.WithFile
      {| RecentPages.page := Resources.mkPage (Some "Parent/Child") false;
         RecentPages.file_path := "graph/pages/Parent___Child.md";
         RecentPages.modified_time := Filesystem.Float 1733011200;
         RecentPages.modified_date := Some "@1733011200";
         RecentPages.size_mb := Filesystem.Float 0 |};
    RecentPages.WithFile
      {| RecentPages.page := Resources.mkPage (Some "Dec 1st, 2024") true;
         RecentPages.file_path := "graph/journals/2024_12_01.md";
         RecentPages.modified_time := Filesystem.Float 1733011200;
         RecentPages.modified_date := Some "@1733011200";
         RecentPages.size_mb := Filesystem.Float 0 |} ].

(** A reply of the remote client to [get_current_graph()]. *)
Definition sample_graph : list (string * string) :=
  [("name", "notes"); ("path", "/home/u/notes"); ("api_url", "stale")].

Definition sample_stats : @GraphInfo.file_stats Z :=
  {| GraphInfo.page_count := 1;
     GraphInfo.journal_count := 1;
     GraphInfo.total_size_mb := 0;
     GraphInfo.graph_path := "graph" |}.

Definition sample_info : list (string * @GraphInfo.field Z string) :=
  [ ("name", GraphInfo.Remote "notes");
    ("path", GraphInfo.Remote "/home/u/notes");
    ("api_url", GraphInfo.ApiUrl "http://localhost:12315");
    ("file_stats", GraphInfo.FileStats sample_stats);
    ("cache_ttl", GraphInfo.CacheTtl 300) ].

(** * Properties *)

(** ** The TTL cache *)

Section CacheProperties.

Import Cache.

Context {V W : Type}.
Variable now : W -> Z.

Implicit Types (self : ResourceCache V) (s : state W) (fetcher : callable V W).

Lemma fetch_and_store_returns self key fetcher s v w' :
  fetcher (world s) = (Ok v, w') ->
  fetch_and_store now self key fetcher s
  = (Ok v, store self key v (now w'),
     {| world := w'; fetcher_calls := S (fetcher_calls s) |}).
Proof.
  intros Hf. unfold fetch_and_store, call. rewrite Hf. reflexivity.
Qed.

(** An exception of the fetcher propagates; nothing is stored. *)
Lemma fetch_and_store_raises self key fetcher s e w' :
  fetcher (world s) = (Raise e, w') ->
  fetch_and_store now self key fetcher s
  = (Raise e, self, {| world := w'; fetcher_calls := S (fetcher_calls s) |}).
Proof.
  intros Hf. unfold fetch_and_store, call. rewrite Hf. reflexivity.
Qed.

Lemma get_or_fetch_hit self key fetcher s data T :
  _cache self !! key = Some (data, T) ->
  now (world s) - T < _ttl self ->
  get_or_fetch now self key fetcher s = (Ok data, self, s).
Proof.
  intros Hk Hfresh. unfold get_or_fetch. rewrite Hk.
  apply Z.ltb_lt in Hfresh. rewrite Hfresh. reflexivity.
Qed.

Lemma get_or_fetch_absent self key fetcher s :
  _cache self !! key = None ->
  get_or_fetch now self key fetcher s = fetch_and_store now self key fetcher s.
Proof. intros Hk. unfold get_or_fetch. rewrite Hk. reflexivity. Qed.

Lemma get_or_fetch_expired self key fetcher s data T :
  _cache self !! key = Some (data, T) ->
  _ttl self <= now (world s) - T ->
  get_or_fetch now self key fetcher s = fetch_and_store now self key fetcher s.
Proof.
  intros Hk Hold. unfold get_or_fetch. rewrite Hk.
  apply Z.ltb_ge in Hold. rewrite Hold. reflexivity.
Qed.

(** C2 (amended).  A fresh entry ([now - T < ttl]) is returned as it is:
    the fetcher is not called and neither the cache nor the world
    changes.  With no entry, or with an entry of age [ttl] or more, the
    fetcher is called exactly once and, when it returns [v], [v] is
    returned and stored under the key together with the clock reading
    taken after the fetcher has returned. *)
Theorem get_or_fetch_spec self key fetcher s :
  (forall data T,
      _cache self !! key = Some (data, T) ->
      now (world s) - T < _ttl self ->
      get_or_fetch now self key fetcher s = (Ok data, self, s))
  /\
  (forall v w',
      (_cache self !! key = None
       \/ exists data T, _cache self !! key = Some (data, T)
                         /\ _ttl self <= now (world s) - T) ->
      fetcher (world s) = (Ok v, w') ->
      get_or_fetch now self key fetcher s
      = (Ok v,
         {| _cache := <[key := (v, now w')]> (_cache self);
            _ttl := _ttl self |},
         {| world := w'; fetcher_calls := S (fetcher_calls s) |})).
Proof.
  split.
  - intros data T Hk Hfresh. eapply get_or_fetch_hit; eassumption.
  - intros v w' [Hnone | (data & T & Hk & Hold)] Hf.
    + rewrite get_or_fetch_absent by assumption.
      apply fetch_and_store_returns; assumption.
    + rewrite (get_or_fetch_expired _ _ _ _ _ _ Hk Hold).
      apply fetch_and_store_returns; assumption.
Qed.

(** [is_cached] is the freshness test of [get_or_fetch]. *)
Lemma is_cached_true_iff self key s :
  is_cached now self key s = true <->
  exists data T, _cache self !! key = Some (data, T)
                 /\ now (world s) - T < _ttl self.
Proof.
  unfold is_cached. destruct (_cache self !! key) as [[data T] |].
  - rewrite Z.ltb_lt. split.
    + intros H. exists data, T. split; [reflexivity | assumption].
    + intros (d & T' & Heq & H). congruence.
  - split; [discriminate | intros (d & T' & Heq & _); discriminate].
Qed.

(** [invalidate] with a non-empty key removes that entry only. *)
Lemma invalidate_key_lookup self k k' :
  Py.str_truthy k = true ->
  _cache (invalidate self (Some k)) !! k'
  = if decide (k = k') then None else _cache self !! k'.
Proof.
  intros Hk. unfold invalidate. rewrite Hk. simpl.
  apply lookup_delete.
Qed.

Lemma invalidate_None self :
  _cache (invalidate self None) = ∅.
Proof. reflexivity. Qed.

Lemma invalidate_forgets self k :
  _cache (invalidate self (Some k)) !! k = None.
Proof.
  unfold invalidate. destruct (Py.str_truthy k); simpl.
  - apply lookup_delete_eq.
  - apply lookup_empty.
Qed.

(** [invalidate(k)] followed by [get_or_fetch(k, f)] calls [f]. *)
Lemma invalidate_then_get_or_fetch self k fetcher s :
  get_or_fetch now (invalidate self (Some k)) k fetcher s
  = fetch_and_store now (invalidate self (Some k)) k fetcher s.
Proof. apply get_or_fetch_absent, invalidate_forgets. Qed.

End CacheProperties.

Lemma get_or_fetch_spec_witness :
  Cache.get_or_fetch clock_now warm_cache "k" slow_fetcher
    (Cache.mkState 300000099 0)
  = (Ok 7, warm_cache, Cache.mkState 300000099 0)
  /\
  Cache.get_or_fetch clock_now warm_cache "k" slow_fetcher
    (Cache.mkState 300000100 0)
  = (Ok 42,
     Cache.mkCache (<["k" := (42, 305000100)]> (Cache._cache warm_cache))
                   (Cache._ttl warm_cache),
     Cache.mkState 305000100 1).
Proof.
  split.
  - apply (proj1 (get_or_fetch_spec clock_now warm_cache "k" slow_fetcher
                    (Cache.mkState 300000099 0)) 7 100).
    + apply lookup_insert_eq.
    + vm_compute. reflexivity.
  - apply (proj2 (get_or_fetch_spec clock_now warm_cache "k" slow_fetcher
                    (Cache.mkState 300000100 0)) 42 305000100).
    + right. exists 7, 100. split.
      * apply lookup_insert_eq.
      * vm_compute. discriminate.
    + reflexivity.
Defined.

(** C2 as stated fails: the time stamp stored on a miss is not the time of
    the call when the fetcher takes time.  Called at 100 on an empty cache,
    [slow_fetcher] leaves the entry stamped 5000100. *)
Lemma get_or_fetch_stamp_counterexample :
  ~ (forall (self : Cache.ResourceCache Z) key (fetcher : Cache.callable Z Z)
            (s : Cache.state Z) v w',
        Cache._cache self !! key = None ->
        fetcher (Cache.world s) = (Ok v, w') ->
        Cache._cache (Cache.get_or_fetch clock_now self key fetcher s).1.2 !! key
        = Some (v, clock_now (Cache.world s))).
Proof.
  intros H.
  specialize (H (Cache.__init__ 300) "k" slow_fetcher (Cache.mkState 100 0)
                42 5000100 (lookup_empty _) eq_refl).
  rewrite get_or_fetch_absent in H by apply lookup_empty.
  rewrite (fetch_and_store_returns clock_now (Cache.__init__ 300) "k"
             slow_fetcher (Cache.mkState 100 0) 42 5000100 eq_refl) in H.
  simpl in H. rewrite lookup_insert_eq in H.
  inversion H.
Qed.

(** C3 (the code at the failing input).  [invalidate("")] takes the
    [else] branch of [if key:] and clears the whole cache: the entry under
    the other key ["a"] is lost as well. *)
Theorem invalidate_empty_key_clears_all :
  (forall (self : Cache.ResourceCache Z) k,
      Cache._cache (Cache.invalidate self (Some "")) !! k = None)
  /\
  (let self := Cache.store (Cache.store (Cache.__init__ 300) "" 1 0) "a" 2 0 in
   Cache._cache self !! "a" = Some (2, 0)
   /\ Cache._cache (Cache.invalidate self (Some "")) !! "a" = None).
Proof.
  split.
  - intros self k. apply lookup_empty.
  - split.
    + apply lookup_insert_eq.
    + apply lookup_empty.
Qed.

(** ** The cache keys of the recent-pages and recent-journals resources *)

(** C1 (the code on every invocation).  [limit] and [days] are locals of
    the nested fetchers, so building the key raises [NameError] before the
    cache is consulted: nothing is looked up or stored under
    ["recent_pages_20"] or ["recent_journals_7"]. *)
Theorem recent_resources_raise_NameError :
  forall (V W : Type) (now : W -> Z) (fetcher : Cache.callable V W)
         (cache : Cache.ResourceCache V) (s : Cache.state W),
    Resources.get_recent_pages now fetcher cache s
    = (Raise (NameError "limit"), cache, s)
    /\ Resources.get_recent_journals now fetcher cache s
       = (Raise (NameError "days"), cache, s).
Proof. intros. split; reflexivity. Qed.

(** The keys the two producers would use if the names were in scope. *)
Lemma intended_keys :
  "recent_pages_" +:+ Resources.format (Config.VInt 20) = "recent_pages_20"
  /\ "recent_journals_" +:+ Resources.format (Config.VInt 7) = "recent_journals_7".
Proof. split; reflexivity. Qed.

(** ** Strings and paths *)

Section StringFacts.

Import Str.

Lemma eqb_ascii_true a b : eqb_ascii a b = true <-> a = b.
Proof. apply Ascii.eqb_eq. Qed.

Lemma contains_char_app c s t :
  contains_char c (s +:+ t) = contains_char c s || contains_char c t.
Proof.
  induction s as [| d s IH]; simpl; [reflexivity |].
  rewrite IH. apply orb_assoc.
Qed.

Lemma replace_removes old new s :
  contains_char old new = false ->
  contains_char old (replace old new s) = false.
Proof.
  intros Hnew. induction s as [| c s IH]; simpl; [reflexivity |].
  destruct (eqb_ascii c old) eqn:E.
  - rewrite contains_char_app, Hnew, IH. reflexivity.
  - simpl. rewrite E, IH. reflexivity.
Qed.

Lemma sub_class_keeps_absent cls repl c s :
  contains_char c repl = false ->
  contains_char c s = false ->
  contains_char c (sub_class cls repl s) = false.
Proof.
  intros Hrepl. induction s as [| d s IH]; simpl; [reflexivity |].
  intros H. apply orb_false_iff in H as [Hd Hs].
  destruct (in_class cls d).
  - rewrite contains_char_app, Hrepl. apply IH, Hs.
  - simpl. rewrite Hd. apply IH, Hs.
Qed.


Lemma strip_prefix_spec p s r :
  strip_prefix p s = Some r <-> s = p +:+ r.
Proof.
  revert s. induction p as [| a p IH]; intros s; simpl.
  - split; [intros [= ->] | intros ->]; reflexivity.
  - destruct s as [| b s].
    + split; discriminate.
    + destruct (eqb_ascii a b) eqn:E.
      * apply eqb_ascii_true in E. subst b. rewrite IH.
        split; [intros ->; reflexivity | intros [=]; assumption].
      * split; [discriminate |].
        intros [= Hab _]. subst b.
        assert (eqb_ascii a a = true) by (apply eqb_ascii_true; reflexivity).
        congruence.
Qed.

(** [contains] decides the substring relation. *)
Lemma contains_spec needle s :
  contains needle s = true <-> exists a b, s = a +:+ needle +:+ b.
Proof.
  induction s as [| c s IH].
  - simpl. destruct (strip_prefix needle "") as [r |] eqn:E.
    + apply strip_prefix_spec in E. split; [| reflexivity].
      intros _. exists "", r. exact E.
    + split; [discriminate |]. intros (a & b & H).
      destruct a as [| x a]; [| discriminate].
      simpl in H. apply (strip_prefix_spec needle) in H. congruence.
  - simpl. destruct (strip_prefix needle (String c s)) as [r |] eqn:E.
    + apply strip_prefix_spec in E. split; [| reflexivity].
      intros _. exists "", r. exact E.
    + rewrite IH. split.
      * intros (a & b & ->). exists (String c a), b. reflexivity.
      * intros (a & b & H). destruct a as [| x a].
        -- simpl in H. apply (strip_prefix_spec needle) in H. congruence.
        -- simpl in H. injection H as _ H. exists a, b. exact H.
Qed.



End StringFacts.

Section PathFacts.

Import Str Filesystem.





Lemma safe_name_no_slash page_name :
  contains_char "/" (safe_name page_name) = false.
Proof.
  unfold safe_name. apply sub_class_keeps_absent; [reflexivity |].
  apply replace_removes. reflexivity.
Qed.




End PathFacts.

(** ** The page-path resolver *)

Section ResolverProperties.

Import Str Filesystem.

Variable path_exists : Path -> bool.

Lemma append_assoc (a b c : string) :
  (a +:+ b) +:+ c = a +:+ (b +:+ c).
Proof.
  induction a as [| x a IH]; [reflexivity |].
  change (String x ((a +:+ b) +:+ c) = String x (a +:+ (b +:+ c))).
  f_equal. exact IH.
Qed.

Lemma sub_class_app cls repl s t :
  sub_class cls repl (s +:+ t)
  = sub_class cls repl s +:+ sub_class cls repl t.
Proof.
  induction s as [| c s IH]; simpl; [reflexivity |].
  rewrite IH. destruct (in_class cls c); [| reflexivity].
  symmetry. apply append_assoc.
Qed.

(** The two passes of [safe_name] amount to one pass that maps each
    character on its own. *)
Lemma safe_name_pointwise page_name :
  safe_name page_name = sanitize page_name.
Proof.
  unfold safe_name. induction page_name as [| c s IH]; [reflexivity |].
  cbn [replace sanitize]. unfold sanitize_char.
  destruct (eqb_ascii c "/") eqn:E.
  - rewrite sub_class_app, IH. reflexivity.
  - cbn [sub_class]. rewrite IH.
    destruct (in_class illegal_chars c); reflexivity.
Qed.

Lemma existing_root_is_truthy graph_path :
  os_path_exists path_exists graph_path = true ->
  negb (Py.str_truthy graph_path)
  || negb (os_path_exists path_exists graph_path) = false.
Proof.
  intros H. rewrite H. unfold os_path_exists in H.
  apply andb_true_iff in H as [-> _]. reflexivity.
Qed.

Lemma get_page_file_path_in_pages page_name graph_path :
  os_path_exists path_exists graph_path = true ->
  path_exists (Path_of graph_path // "pages" // (safe_name page_name +:+ ".md"))
  = true ->
  get_page_file_path path_exists page_name graph_path
  = Some (Path_of graph_path // "pages" // (safe_name page_name +:+ ".md")).
Proof.
  intros Hroot Hp. unfold get_page_file_path.
  rewrite (existing_root_is_truthy _ Hroot), Hp. reflexivity.
Qed.

Lemma get_page_file_path_in_journals page_name graph_path :
  os_path_exists path_exists graph_path = true ->
  path_exists (Path_of graph_path // "pages" // (safe_name page_name +:+ ".md"))
  = false ->
  path_exists (Path_of graph_path // "journals" // (safe_name page_name +:+ ".md"))
  = true ->
  get_page_file_path path_exists page_name graph_path
  = Some (Path_of graph_path // "journals" // (safe_name page_name +:+ ".md")).
Proof.
  intros Hroot Hp Hj. unfold get_page_file_path.
  rewrite (existing_root_is_truthy _ Hroot), Hp, Hj. reflexivity.
Qed.

(** With neither direct file, the journal-date heuristics decide. *)
Lemma get_page_file_path_fallback page_name graph_path :
  os_path_exists path_exists graph_path = true ->
  path_exists (Path_of graph_path // "pages" // (safe_name page_name +:+ ".md"))
  = false ->
  path_exists (Path_of graph_path // "journals" // (safe_name page_name +:+ ".md"))
  = false ->
  get_page_file_path path_exists page_name graph_path
  = if is_journal_page_name page_name then
      match convert_journal_name_to_path path_exists page_name graph_path with
      | Some date_path =>
          if path_exists date_path then Some date_path else None
      | None => None
      end
    else None.
Proof.
  intros Hroot Hp Hj. unfold get_page_file_path.
  rewrite (existing_root_is_truthy _ Hroot), Hp, Hj. reflexivity.
Qed.


End ResolverProperties.


Section JournalProperties.

Import Str Filesystem.

Variable path_exists : Path -> bool.

Lemma try_formats_found journal_name graph_path fmt fmts d :
  strptime (sub_group1 ordinal_pattern 0 journal_name) fmt = Ok d ->
  path_exists (Path_of graph_path // "journals" // strftime d "%Y_%m_%d.md")
  = true ->
  try_formats path_exists journal_name graph_path (fmt :: fmts)
  = Ok (Some (Path_of graph_path // "journals" // strftime d "%Y_%m_%d.md")).
Proof.
  intros Hparse Hfile. cbn [try_formats]. rewrite Hparse.
  cbv zeta. rewrite Hfile. reflexivity.
Qed.

Lemma try_formats_skip journal_name graph_path fmt fmts msg :
  strptime (sub_group1 ordinal_pattern 0 journal_name) fmt
  = Raise (ValueError msg) ->
  try_formats path_exists journal_name graph_path (fmt :: fmts)
  = try_formats path_exists journal_name graph_path fmts.
Proof. intros Hparse. cbn [try_formats]. rewrite Hparse. reflexivity. Qed.






Lemma is_journal_page_name_examples :
  is_journal_page_name "Dec 1st, 2024" = true
  /\ is_journal_page_name "December 1, 2024" = true.
Proof. split; vm_compute; reflexivity. Qed.

Lemma strptime_examples :
  sub_group1 ordinal_pattern 0 "Dec 1st, 2024" = "Dec 1, 2024"
  /\ sub_group1 ordinal_pattern 0 "December 1, 2024" = "December 1, 2024"
  /\ strptime "Dec 1, 2024" "%b %d, %Y" = Ok (mkDate 2024 12 1)
  /\ strptime "December 1, 2024" "%b %d, %Y"
     = Raise (ValueError "time data does not match format")
  /\ strptime "December 1, 2024" "%B %d, %Y" = Ok (mkDate 2024 12 1)
  /\ strftime (mkDate 2024 12 1) "%Y_%m_%d.md" = "2024_12_01.md".
Proof. repeat split; vm_compute; reflexivity. Qed.

(** C5.  Under an existing graph root that holds
    [journals/2024_12_01.md] and none of the files named after the page
    itself, ["Dec 1st, 2024"] and ["December 1, 2024"] both resolve to
    that journal file: both names have a journal shape, the ordinal
    suffix is stripped, the abbreviated name parses with [%b] and the
    full name with [%B], and the date is printed as [2024_12_01.md]. *)
Theorem get_page_file_path_journal_dates graph_path :
  os_path_exists path_exists graph_path = true ->
  path_exists (Path_of graph_path // "journals" // "2024_12_01.md") = true ->
  path_exists (Path_of graph_path // "pages" // "Dec 1st, 2024.md") = false ->
  path_exists (Path_of graph_path // "journals" // "Dec 1st, 2024.md") = false ->
  path_exists (Path_of graph_path // "pages" // "December 1, 2024.md") = false ->
  path_exists (Path_of graph_path // "journals" // "December 1, 2024.md") = false ->
  get_page_file_path path_exists "Dec 1st, 2024" graph_path
  = Some (Path_of graph_path // "journals" // "2024_12_01.md")
  /\ get_page_file_path path_exists "December 1, 2024" graph_path
     = Some (Path_of graph_path // "journals" // "2024_12_01.md")
  /\ is_journal_page_name "Dec 1st, 2024" = true
  /\ is_journal_page_name "December 1, 2024" = true
  /\ sub_group1 ordinal_pattern 0 "Dec 1st, 2024" = "Dec 1, 2024"
  /\ strptime "Dec 1, 2024" "%b %d, %Y" = Ok (mkDate 2024 12 1)
  /\ strptime "December 1, 2024" "%B %d, %Y" = Ok (mkDate 2024 12 1)
  /\ strftime (mkDate 2024 12 1) "%Y_%m_%d.md" = "2024_12_01.md".
Proof.
  intros Hroot Hfile Hp1 Hj1 Hp2 Hj2.
  destruct is_journal_page_name_examples as [Hn1 Hn2].
  destruct strptime_examples as (Hc1 & Hc2 & Hs1 & Hs2 & Hs3 & Hf).
  assert (Hfile' :
    path_exists (Path_of graph_path // "journals"
                 // strftime (mkDate 2024 12 1) "%Y_%m_%d.md") = true)
    by (rewrite Hf; exact Hfile).
  repeat split; try assumption.
  - rewrite get_page_file_path_fallback; try assumption.
    rewrite Hn1. unfold convert_journal_name_to_path, journal_formats.
    rewrite (try_formats_found _ _ _ _ (mkDate 2024 12 1));
      [| rewrite Hc1; exact Hs1 | exact Hfile'].
    rewrite Hfile', Hf. reflexivity.
  - rewrite get_page_file_path_fallback; try assumption.
    rewrite Hn2. unfold convert_journal_name_to_path, journal_formats.
    rewrite (try_formats_skip _ _ _ _ "time data does not match format");
      [| rewrite Hc2; exact Hs2].
    rewrite (try_formats_found _ _ _ _ (mkDate 2024 12 1));
      [| rewrite Hc2; exact Hs3 | exact Hfile'].
    rewrite Hfile', Hf. reflexivity.
Qed.

End JournalProperties.


Lemma get_page_file_path_journal_dates_witness :
  Filesystem.get_page_file_path (Filesystem.on_disk sample_disk)
    "Dec 1st, 2024" "graph"
  = Some ["graph"; "journals"; "2024_12_01.md"]
  /\ Filesystem.get_page_file_path (Filesystem.on_disk sample_disk)
       "December 1, 2024" "graph"
     = Some ["graph"; "journals"; "2024_12_01.md"].
Proof.
  pose proof (get_page_file_path_journal_dates (Filesystem.on_disk sample_disk)
                "graph" eq_refl eq_refl eq_refl eq_refl eq_refl eq_refl)
    as (H1 & H2 & _).
  split; [exact H1 | exact H2].
Defined.

(** ** File metadata *)

Section MetadataProperties.

Import Filesystem.

Context {float : Type}.
Variable round_mb : Z -> float.
Variable fromtimestamp_isoformat : float -> result string.
Variable stat : Path -> result (@stat_result float).

Abbreviation get_file_metadata :=
  (Filesystem.get_file_metadata round_mb fromtimestamp_isoformat stat).
Abbreviation try_stat :=
  (Filesystem.try_stat round_mb fromtimestamp_isoformat stat).

Lemma get_file_metadata_caught file_path e :
  try_stat file_path = Raise e ->
  Py.is_OSError e = true ->
  get_file_metadata file_path = Ok zeroed.
Proof.
  intros Ht He. unfold Filesystem.get_file_metadata. rewrite Ht, He.
  reflexivity.
Qed.

Lemma get_file_metadata_propagates file_path e :
  try_stat file_path = Raise e ->
  Py.is_OSError e = false ->
  get_file_metadata file_path = Raise e.
Proof.
  intros Ht He. unfold Filesystem.get_file_metadata. rewrite Ht, He.
  reflexivity.
Qed.

(** C6 (amended).  An [OSError] of [stat] gives the zeroed record with
    [exists = false]; a [stat] that succeeds with two time stamps that
    convert gives a record with [exists = true]; a record that is
    returned is one of these two; and an exception is raised exactly when
    [stat] or a time-stamp conversion raises one that is not an
    [OSError], which then reaches the caller. *)
Theorem get_file_metadata_spec file_path :
  (forall e, stat file_path = Raise e -> Py.is_OSError e = true ->
             get_file_metadata file_path = Ok zeroed)
  /\ (forall st md cd,
        stat file_path = Ok st ->
        fromtimestamp_isoformat (st_mtime st) = Ok md ->
        fromtimestamp_isoformat (st_ctime st) = Ok cd ->
        get_file_metadata file_path
        = Ok {| size := st_size st;
                size_mb := Float (round_mb (st_size st));
                modified_time := Float (st_mtime st);
                created_time := Float (st_ctime st);
                modified_date := Some md;
                created_date := Some cd;
                exists_ := true |})
  /\ (forall m, get_file_metadata file_path = Ok m ->
                exists_ m = true \/ m = zeroed)
  /\ (forall e, get_file_metadata file_path = Raise e <->
                Py.is_OSError e = false /\ try_stat file_path = Raise e).
Proof.
  split; [| split; [| split]].
  - intros e Hs He. apply (get_file_metadata_caught file_path e); [| exact He].
    unfold Filesystem.try_stat. rewrite Hs. reflexivity.
  - intros st md cd Hs Hm Hc. unfold Filesystem.get_file_metadata,
      Filesystem.try_stat. rewrite Hs. simpl. rewrite Hm. simpl.
    rewrite Hc. reflexivity.
  - intros m. unfold Filesystem.get_file_metadata.
    destruct (try_stat file_path) as [m' | e] eqn:Ht.
    + intros [= <-]. left. unfold Filesystem.try_stat, Py.bind in Ht.
      destruct (stat file_path) as [st |]; cbn in Ht; [| discriminate].
      destruct (fromtimestamp_isoformat (st_mtime st)); cbn in Ht;
        [| discriminate].
      destruct (fromtimestamp_isoformat (st_ctime st)); cbn in Ht;
        [| discriminate].
      injection Ht as <-. reflexivity.
    + destruct (Py.is_OSError e); [| discriminate].
      intros [= <-]. right. reflexivity.
  - intros e. split.
    + unfold Filesystem.get_file_metadata.
      destruct (try_stat file_path) as [m' | e'] eqn:Ht; [discriminate |].
      destruct (Py.is_OSError e') eqn:He; [discriminate |].
      intros [= <-]. split; [exact He | reflexivity].
    + intros [He Ht]. apply get_file_metadata_propagates; assumption.
Qed.

End MetadataProperties.

Lemma get_file_metadata_spec_witness :
  Filesystem.get_file_metadata sample_round_mb sample_isoformat
    (sample_stat 1733011200) ["graph"; "pages"; "Missing.md"]
  = Ok Filesystem.zeroed
  /\ Filesystem.get_file_metadata sample_round_mb sample_isoformat
       (sample_stat 1733011200) ["graph"; "journals"; "2024_12_01.md"]
     = Ok {| Filesystem.size := 2048;
             Filesystem.size_mb := Filesystem.Float 0;
             Filesystem.modified_time := Filesystem.Float 1733011200;
             Filesystem.created_time := Filesystem.Float 1733011200;
             Filesystem.modified_date := Some "@1733011200";
             Filesystem.created_date := Some "@1733011200";
             Filesystem.exists_ := true |}.
Proof.
  split.
  - apply (proj1 (get_file_metadata_spec sample_round_mb sample_isoformat
                    (sample_stat 1733011200) ["graph"; "pages"; "Missing.md"])
             (OSError "No such file or directory")).
    + vm_compute. reflexivity.
    + reflexivity.
  - apply (proj1 (proj2 (get_file_metadata_spec sample_round_mb sample_isoformat
                    (sample_stat 1733011200)
                    ["graph"; "journals"; "2024_12_01.md"]))
             (Filesystem.mkStat 2048 1733011200 1733011200)
             "@1733011200" "@1733011200").
    + vm_compute. reflexivity.
    + vm_compute. reflexivity.
    + vm_compute. reflexivity.
Defined.

(** C6 as stated fails twice.  [stat] on a path with an embedded NUL raises
    [ValueError], which the handler does not catch; and an [OSError] of the
    time-stamp conversion is caught although [stat] succeeded, so the
    zeroed record with [exists = false] is returned for a file that
    exists. *)
Lemma get_file_metadata_counterexample :
  Filesystem.get_file_metadata sample_round_mb sample_isoformat
    (sample_stat 1733011200) ["graph"; "pages"; String "000" ".md"]
  = Raise (ValueError "embedded null byte")
  /\ Filesystem.get_file_metadata sample_round_mb sample_isoformat
       (sample_stat 253402300800) ["graph"; "journals"; "2024_12_01.md"]
     = Raise (ValueError "year is out of range")
  /\ (sample_stat 1733011200 ["graph"; "journals"; "2024_12_01.md"]
      = Ok (Filesystem.mkStat 2048 1733011200 1733011200)
      /\ Filesystem.get_file_metadata sample_round_mb
           (fun _ => Raise (OSError "Value too large for defined data type"))
           (sample_stat 1733011200) ["graph"; "journals"; "2024_12_01.md"]
         = Ok Filesystem.zeroed).
Proof. repeat split; vm_compute; reflexivity. Qed.

(** ** The graph-structure analysis *)

Section GraphProperties.

Import Config Resources.

Context {ref : Type}.
Variable get_page_linked_references : string -> result (list ref).
Variable get_page_blocks : string -> result (list block).

Abbreviation process_page :=
  (Resources.process_page get_page_linked_references get_page_blocks).
Abbreviation analyse :=
  (Resources.analyse get_page_linked_references get_page_blocks).
Abbreviation is_orphan :=
  (Resources.is_orphan get_page_linked_references get_page_blocks).
Abbreviation fails :=
  (Resources.fails get_page_linked_references get_page_blocks).

Lemma assoc_dict_set {A} (d : list (string * A)) k k' v :
  assoc k (dict_set d k' v)
  = if String.eqb k k' then Some v else assoc k d.
Proof.
  induction d as [| [k0 v0] d IH]; simpl.
  - destruct (String.eqb k k'); reflexivity.
  - destruct (String.eqb_spec k' k0) as [-> | Hne]; simpl.
    + destruct (String.eqb k k0); reflexivity.
    + rewrite IH. destruct (String.eqb_spec k k0) as [-> | Hne'].
      * destruct (String.eqb_spec k0 k'); [congruence | reflexivity].
      * reflexivity.
Qed.

(** What one iteration does to each accumulator. *)
Lemma process_page_orphaned a p :
  orphaned_pages (process_page a p)
  = (orphaned_pages a
     ++ if is_orphan (default "" (name p)) then [default "" (name p)] else [])%list.
Proof.
  unfold Resources.process_page, try_references, Resources.is_orphan.
  destruct (get_page_linked_references _) as [refs | e]; simpl.
  - destruct (List.length refs =? 0)%nat; simpl.
    + destruct (get_page_blocks _) as [blocks | e]; simpl.
      * destruct (has_outgoing blocks); simpl;
          [rewrite app_nil_r |]; reflexivity.
      * rewrite app_nil_r. reflexivity.
    + rewrite app_nil_r. reflexivity.
  - rewrite app_nil_r. reflexivity.
Qed.

Lemma process_page_counts a p :
  page_link_counts (process_page a p)
  = match get_page_linked_references (default "" (name p)) with
    | Ok refs =>
        dict_set (page_link_counts a) (default "" (name p)) (List.length refs)
    | Raise _ => page_link_counts a
    end.
Proof.
  unfold Resources.process_page, try_references.
  destruct (get_page_linked_references _) as [refs | e]; simpl.
  - destruct (List.length refs =? 0)%nat; simpl.
    + destruct (get_page_blocks _) as [blocks | e]; simpl.
      * destruct (has_outgoing blocks); reflexivity.
      * reflexivity.
    + reflexivity.
  - reflexivity.
Qed.

Lemma process_page_logged a p :
  logged (process_page a p)
  = (logged a
     ++ if fails (default "" (name p)) then [default "" (name p)] else [])%list.
Proof.
  unfold Resources.process_page, try_references, Resources.fails.
  destruct (get_page_linked_references _) as [refs | e]; simpl.
  - destruct (List.length refs =? 0)%nat; simpl.
    + destruct (get_page_blocks _) as [blocks | e]; simpl.
      * destruct (has_outgoing blocks); simpl; rewrite app_nil_r; reflexivity.
      * reflexivity.
    + rewrite app_nil_r. reflexivity.
  - reflexivity.
Qed.

(** The accumulators after the whole loop. *)
Lemma loop_orphaned l a :
  orphaned_pages (fold_left process_page l a)
  = (orphaned_pages a ++ List.filter is_orphan (page_names l))%list.
Proof.
  revert a. induction l as [| p l IH]; intros a; simpl.
  - rewrite app_nil_r. reflexivity.
  - rewrite IH, process_page_orphaned, <- app_assoc.
    destruct (is_orphan _); reflexivity.
Qed.

Lemma loop_logged l a :
  logged (fold_left process_page l a)
  = (logged a ++ List.filter fails (page_names l))%list.
Proof.
  revert a. induction l as [| p l IH]; intros a; simpl.
  - rewrite app_nil_r. reflexivity.
  - rewrite IH, process_page_logged, <- app_assoc.
    destruct (fails _); reflexivity.
Qed.

Lemma loop_counts l a n :
  assoc n (page_link_counts (fold_left process_page l a))
  = match get_page_linked_references n with
    | Ok refs =>
        if existsb (String.eqb n) (page_names l)
        then Some (List.length refs)
        else assoc n (page_link_counts a)
    | Raise _ => assoc n (page_link_counts a)
    end.
Proof.
  revert a. induction l as [| p l IH]; intros a; simpl.
  - destruct (get_page_linked_references n); reflexivity.
  - rewrite IH, process_page_counts.
    destruct (String.eqb_spec n (default "" (name p))) as [<- | Hne].
    + destruct (get_page_linked_references n) as [refs | e]; [| reflexivity].
      simpl. rewrite assoc_dict_set, String.eqb_refl.
      destruct (existsb _ _); reflexivity.
    + simpl.
      destruct (get_page_linked_references (default "" (name p)));
        [| reflexivity].
      rewrite assoc_dict_set.
      destruct (String.eqb_spec n (default "" (name p))); [contradiction |].
      reflexivity.
Qed.

Lemma analyse_orphaned all_pages :
  orphaned_pages (analyse all_pages)
  = List.filter is_orphan (page_names all_pages).
Proof. unfold Resources.analyse. rewrite loop_orphaned. reflexivity. Qed.

Lemma analyse_logged all_pages :
  logged (analyse all_pages) = List.filter fails (page_names all_pages).
Proof. unfold Resources.analyse. rewrite loop_logged. reflexivity. Qed.

Lemma in_page_names n l :
  In n (page_names l) <-> existsb (String.eqb n) (page_names l) = true.
Proof.
  rewrite existsb_exists. split.
  - intros H. exists n. split; [exact H | apply String.eqb_refl].
  - intros (m & Hm & E). apply String.eqb_eq in E. subst m. exact Hm.
Qed.

Lemma analyse_counts all_pages n :
  In n (page_names all_pages) ->
  assoc n (page_link_counts (analyse all_pages))
  = match get_page_linked_references n with
    | Ok refs => Some (List.length refs)
    | Raise _ => None
    end.
Proof.
  intros Hn. unfold Resources.analyse. rewrite loop_counts.
  apply in_page_names in Hn. rewrite Hn.
  destruct (get_page_linked_references n); reflexivity.
Qed.

Lemma has_outgoing_false_iff blocks :
  has_outgoing blocks = false <->
  forall b, In b blocks ->
            ~ exists x y, default "" (content b) = x +:+ "[[" +:+ y.
Proof.
  unfold has_outgoing. split.
  - intros H b Hb Hsub. apply contains_spec in Hsub.
    assert (existsb (fun b => Str.contains "[[" (default "" (content b))) blocks
            = true) by (apply existsb_exists; exists b; split; assumption).
    congruence.
  - intros H. destruct (existsb _ blocks) eqn:E; [| reflexivity].
    apply existsb_exists in E as (b & Hb & Hc).
    apply contains_spec in Hc. exfalso. exact (H b Hb Hc).
Qed.

End GraphProperties.

Section GraphClaims.

Import Config Resources.

Context {ref : Type}.
Variable get_page_linked_references : string -> result (list ref).
Variable get_page_blocks : string -> result (list block).

Abbreviation analyse :=
  (Resources.analyse get_page_linked_references get_page_blocks).
Abbreviation is_orphan :=
  (Resources.is_orphan get_page_linked_references get_page_blocks).
Abbreviation fails :=
  (Resources.fails get_page_linked_references get_page_blocks).

Lemma orphaned_iff all_pages n :
  In n (orphaned_pages (analyse all_pages))
  <-> In n (page_names all_pages) /\ is_orphan n = true.
Proof. rewrite analyse_orphaned. apply filter_In. Qed.

Lemma is_orphan_iff n :
  is_orphan n = true <->
  exists refs blocks,
    get_page_linked_references n = Ok refs /\ List.length refs = O
    /\ get_page_blocks n = Ok blocks /\ has_outgoing blocks = false.
Proof.
  unfold Resources.is_orphan.
  destruct (get_page_linked_references n) as [refs | e].
  - destruct (get_page_blocks n) as [blocks | e].
    + rewrite andb_true_iff, Nat.eqb_eq, negb_true_iff. split.
      * intros [H1 H2]. exists refs, blocks. auto.
      * intros (r & b & [= <-] & H1 & [= <-] & H2). auto.
    + rewrite andb_false_r. split; [discriminate |].
      intros (r & b & _ & _ & H & _). discriminate.
  - split; [discriminate |]. intros (r & b & H & _). discriminate.
Qed.

(** C7.  A page whose processing raises no error (its references are
    fetched and, when there are none, its blocks are fetched as well) is
    in the orphan list if and only if it has no linked reference and no
    block whose content contains ["[["]; so a page without references
    but with such a block is not in the list. *)
Theorem orphan_classification all_pages p refs :
  In p all_pages ->
  get_page_linked_references (default "" (name p)) = Ok refs ->
  (List.length refs = O ->
   exists blocks, get_page_blocks (default "" (name p)) = Ok blocks) ->
  (In (default "" (name p)) (orphaned_pages (analyse all_pages))
   <-> List.length refs = O
       /\ exists blocks,
            get_page_blocks (default "" (name p)) = Ok blocks
            /\ forall b, In b blocks ->
                 ~ exists x y, default "" (content b) = x +:+ "[[" +:+ y)
  /\ (forall blocks b,
        List.length refs = O ->
        get_page_blocks (default "" (name p)) = Ok blocks ->
        In b blocks ->
        (exists x y, default "" (content b) = x +:+ "[[" +:+ y) ->
        ~ In (default "" (name p)) (orphaned_pages (analyse all_pages))).
Proof.
  intros Hp Hrefs Hblocks.
  assert (Hn : In (default "" (name p)) (page_names all_pages))
    by (apply (in_map (fun p => default "" (name p))), Hp).
  assert (Hiff :
    In (default "" (name p)) (orphaned_pages (analyse all_pages))
    <-> List.length refs = O
        /\ exists blocks,
             get_page_blocks (default "" (name p)) = Ok blocks
             /\ forall b, In b blocks ->
                  ~ exists x y, default "" (content b) = x +:+ "[[" +:+ y).
  { rewrite orphaned_iff, is_orphan_iff. split.
    - intros (_ & r & b & Hr & Hlen & Hb & Hout).
      rewrite Hrefs in Hr. injection Hr as <-.
      split; [exact Hlen |]. exists b. split; [exact Hb |].
      apply has_outgoing_false_iff, Hout.
    - intros (Hlen & b & Hb & Hout). split; [exact Hn |].
      exists refs, b. repeat split; try assumption.
      apply has_outgoing_false_iff, Hout. }
  split; [exact Hiff |].
  intros blocks b Hlen Hb Hin Hmark Horph.
  apply Hiff in Horph as (_ & blocks' & Hb' & Hnone).
  rewrite Hb in Hb'. injection Hb' as <-.
  exact (Hnone b Hin Hmark).
Qed.

(** C8 (amended).  A page whose processing raises is logged and is not
    put on the orphan list.  It is left out of the link counts when the
    references could not be fetched; when the error came later, from the
    blocks, its count of 0 has already been recorded.  The other pages
    are processed as usual: each is on the orphan list exactly when it is
    an orphan, and each page whose references can be fetched has its
    count. *)
Theorem failing_page_accounting all_pages n :
  In n (page_names all_pages) ->
  fails n = true ->
  ~ In n (orphaned_pages (analyse all_pages))
  /\ In n (logged (analyse all_pages))
  /\ (forall e, get_page_linked_references n = Raise e ->
                assoc n (page_link_counts (analyse all_pages)) = None)
  /\ (forall refs, get_page_linked_references n = Ok refs ->
                   assoc n (page_link_counts (analyse all_pages)) = Some O)
  /\ (forall m, In m (page_names all_pages) ->
        (In m (orphaned_pages (analyse all_pages)) <-> is_orphan m = true)
        /\ forall refs, get_page_linked_references m = Ok refs ->
             assoc m (page_link_counts (analyse all_pages))
             = Some (List.length refs)).
Proof.
  intros Hn Hfail. split; [| split; [| split; [| split]]].
  - rewrite orphaned_iff. intros [_ Ho].
    unfold Resources.fails in Hfail. unfold Resources.is_orphan in Ho.
    destruct (get_page_linked_references n); [| discriminate].
    destruct (List.length a =? 0)%nat; [| discriminate].
    destruct (get_page_blocks n); discriminate.
  - rewrite analyse_logged. apply filter_In. split; assumption.
  - intros e He. rewrite analyse_counts by assumption. rewrite He.
    reflexivity.
  - intros refs Hr. rewrite analyse_counts by assumption. rewrite Hr.
    unfold Resources.fails in Hfail. rewrite Hr in Hfail.
    apply andb_true_iff in Hfail as [Hlen _].
    apply Nat.eqb_eq in Hlen. rewrite Hlen. reflexivity.
  - intros m Hm. split.
    + rewrite orphaned_iff. tauto.
    + intros refs Hr. rewrite analyse_counts by assumption. rewrite Hr.
      reflexivity.
Qed.

(** C9 (the code on every input).  The configuration object has no
    attribute [MAX_LINKED_PAGES], [MAX_PAGES_PER_NAMESPACE] or
    [MAX_ORPHANED_PAGES], whatever the environment: once the pages have
    been fetched and analysed, [fetch_graph_structure] raises
    [AttributeError] at the first of them and produces no result. *)
Theorem fetch_graph_structure_raises_AttributeError
    (get_all_pages : result (list page)) (c : Config) :
  getattr (attributes c) "MAX_LINKED_PAGES"
  = Raise (AttributeError "MAX_LINKED_PAGES")
  /\ getattr (attributes c) "MAX_PAGES_PER_NAMESPACE"
     = Raise (AttributeError "MAX_PAGES_PER_NAMESPACE")
  /\ getattr (attributes c) "MAX_ORPHANED_PAGES"
     = Raise (AttributeError "MAX_ORPHANED_PAGES")
  /\ fetch_graph_structure get_all_pages get_page_linked_references
       get_page_blocks (attributes c)
     = match get_all_pages with
       | Ok _ => Raise (AttributeError "MAX_LINKED_PAGES")
       | Raise e => Raise e
       end.
Proof.
  split; [reflexivity | split; [reflexivity | split; [reflexivity |]]].
  unfold fetch_graph_structure. destruct get_all_pages; reflexivity.
Qed.

End GraphClaims.

Lemma orphan_classification_witness :
  (In "A" (Resources.orphaned_pages
             (Resources.analyse sample_references sample_blocks sample_pages))
   <-> List.length (@nil unit) = O
       /\ exists blocks,
            sample_blocks "A" = Ok blocks
            /\ forall b, In b blocks ->
                 ~ exists x y,
                     default "" (Resources.content b) = x +:+ "[[" +:+ y)
  /\ (forall blocks b,
        List.length (@nil unit) = O ->
        sample_blocks "A" = Ok blocks ->
        In b blocks ->
        (exists x y, default "" (Resources.content b) = x +:+ "[[" +:+ y) ->
        ~ In "A" (Resources.orphaned_pages
                    (Resources.analyse sample_references sample_blocks
                       sample_pages))).
Proof.
  apply (orphan_classification sample_references sample_blocks sample_pages
           (Resources.mkPage (Some "A") false) []).
  - simpl. left. reflexivity.
  - reflexivity.
  - intros _. eexists. reflexivity.
Defined.

Lemma failing_page_accounting_witness :
  ~ In "E" (Resources.orphaned_pages
              (Resources.analyse sample_references sample_blocks sample_pages))
  /\ In "E" (Resources.logged
               (Resources.analyse sample_references sample_blocks sample_pages))
  /\ Config.assoc "E"
       (Resources.page_link_counts
          (Resources.analyse sample_references sample_blocks sample_pages))
     = Some O.
Proof.
  assert (Hin : In "E" (Resources.page_names sample_pages))
    by (simpl; do 4 right; left; reflexivity).
  destruct (failing_page_accounting sample_references sample_blocks
              sample_pages "E" Hin eq_refl) as (H1 & H2 & _ & H4 & _).
  split; [exact H1 | split; [exact H2 |]].
  apply (H4 []). reflexivity.
Defined.

(** C8 as stated fails: the processing of ["E"] raises (its blocks cannot
    be fetched), yet ["E"] is in the link counts with 0 and so takes part
    in the ranking of the most-linked pages. *)
Lemma failing_page_counted_counterexample :
  snd (Resources.try_references sample_references sample_blocks "E"
         Resources.empty_analysis)
  = Some (RuntimeError "HTTP 500")
  /\ Resources.page_link_counts
       (Resources.analyse sample_references sample_blocks sample_pages)
     = [("A", O); ("B", O); ("C", 1%nat); ("E", O)]
  /\ Resources.sorted_by_count
       (Resources.page_link_counts
          (Resources.analyse sample_references sample_blocks sample_pages))
     = [("C", 1%nat); ("A", O); ("B", O); ("E", O)].
Proof. repeat split; vm_compute; reflexivity. Qed.

(** ** What the summary would hold if the limits were defined *)

Section Ranking.

Import Config Resources.

Lemma insert_desc_perm x l : Permutation (insert_desc x l) (x :: l).
Proof.
  induction l as [| y l IH]; simpl; [reflexivity |].
  destruct (snd y <=? snd x)%nat; [reflexivity |].
  rewrite IH. apply perm_swap.
Qed.

Lemma sorted_by_count_perm l : Permutation (sorted_by_count l) l.
Proof.
  induction l as [| x l IH]; simpl; [reflexivity |].
  unfold sorted_by_count in *. simpl.
  rewrite insert_desc_perm. apply perm_skip, IH.
Qed.

Lemma insert_desc_sorted x l :
  StronglySorted by_count_desc l ->
  StronglySorted by_count_desc (insert_desc x l).
Proof.
  induction 1 as [| y l Hs IH Hy]; simpl.
  - constructor; constructor.
  - destruct (snd y <=? snd x)%nat eqn:E.
    + apply Nat.leb_le in E. constructor.
      * constructor; assumption.
      * constructor; [exact E |].
        apply List.Forall_forall. intros z Hz.
        pose proof (proj1 (List.Forall_forall _ _) Hy z Hz) as Hyz.
        unfold by_count_desc in *. lia.
    + apply Nat.leb_gt in E. constructor; [exact IH |].
      apply List.Forall_forall. intros z Hz.
      apply (Permutation_in _ (insert_desc_perm x l)) in Hz.
      destruct Hz as [<- | Hz].
      * unfold by_count_desc. lia.
      * exact (proj1 (List.Forall_forall _ _) Hy z Hz).
Qed.

(** The ranking is in descending order of count. *)
Lemma sorted_by_count_sorted l :
  StronglySorted by_count_desc (sorted_by_count l).
Proof.
  induction l as [| x l IH]; simpl; [constructor |].
  apply insert_desc_sorted, IH.
Qed.

Lemma insert_desc_stable c x l :
  List.filter (fun y => (snd y =? c)%nat) (insert_desc x l)
  = List.filter (fun y => (snd y =? c)%nat) (x :: l).
Proof.
  induction l as [| y l IH]; [reflexivity |].
  cbn [insert_desc]. destruct (snd y <=? snd x)%nat eqn:E; [reflexivity |].
  apply Nat.leb_gt in E. cbn [List.filter] in *. rewrite IH.
  destruct (Nat.eqb_spec (snd x) c) as [Hx | Hx];
    destruct (Nat.eqb_spec (snd y) c) as [Hy | Hy];
    try reflexivity.
  lia.
Qed.

(** Pages of equal count keep the order in which they were first counted. *)
Lemma sorted_by_count_stable c l :
  List.filter (fun y => (snd y =? c)%nat) (sorted_by_count l)
  = List.filter (fun y => (snd y =? c)%nat) l.
Proof.
  induction l as [| x l IH]; [reflexivity |].
  change (sorted_by_count (x :: l)) with (insert_desc x (sorted_by_count l)).
  rewrite insert_desc_stable. cbn [List.filter]. rewrite IH. reflexivity.
Qed.

Lemma slice_to_nonneg {A} (l : list A) n :
  0 <= n -> slice_to l (VInt n) = Ok (take (Z.to_nat n) l).
Proof.
  intros Hn. unfold slice_to.
  destruct (Z.ltb_spec n 0); [lia | reflexivity].
Qed.

Context {ref : Type}.
Variable get_page_linked_references : string -> result (list ref).
Variable get_page_blocks : string -> result (list block).
Variable config : list (string * value).
Variables max_linked max_per_namespace max_orphaned : nat.

Hypothesis linked_defined :
  getattr config "MAX_LINKED_PAGES" = Ok (VInt (Z.of_nat max_linked)).
Hypothesis per_namespace_defined :
  getattr config "MAX_PAGES_PER_NAMESPACE"
  = Ok (VInt (Z.of_nat max_per_namespace)).
Hypothesis orphaned_defined :
  getattr config "MAX_ORPHANED_PAGES" = Ok (VInt (Z.of_nat max_orphaned)).

Lemma summarise_namespaces_with_limit items :
  map_result (summarise_namespace config) items
  = Ok (List.map
          (fun item =>
             (fst item,
              {| page_count := List.length (snd item);
                 pages := take max_per_namespace (sorted (snd item)) |}))
          items).
Proof.
  induction items as [| item items IH]; [reflexivity |].
  cbn [map_result List.map]. rewrite IH. unfold summarise_namespace.
  rewrite per_namespace_defined. cbn [Py.bind].
  rewrite slice_to_nonneg by lia. rewrite Nat2Z.id. reflexivity.
Qed.

(** With a configuration object that defines the three limits, the
    producer returns a summary whose lists are the first
    [MAX_LINKED_PAGES] items of the ranking, the first
    [MAX_PAGES_PER_NAMESPACE] sorted names of a namespace and the first
    [MAX_ORPHANED_PAGES] orphans. *)
Lemma fetch_graph_structure_with_limits all_pages :
  exists st,
    fetch_graph_structure (Ok all_pages) get_page_linked_references
      get_page_blocks config = Ok st
    /\ most_linked_pages st
       = take max_linked
           (sorted_by_count
              (page_link_counts
                 (analyse get_page_linked_references get_page_blocks all_pages)))
    /\ orphaned_listed st
       = take max_orphaned
           (orphaned_pages
              (analyse get_page_linked_references get_page_blocks all_pages))
    /\ Forall (fun item =>
                 (List.length (pages (snd item)) <= max_per_namespace)%nat)
              (namespace_summary st)
    /\ (List.length (most_linked_pages st) <= max_linked)%nat
    /\ (List.length (orphaned_listed st) <= max_orphaned)%nat.
Proof.
  unfold fetch_graph_structure. cbn [Py.bind].
  rewrite linked_defined. cbn [Py.bind].
  rewrite slice_to_nonneg by lia. cbn [Py.bind].
  rewrite summarise_namespaces_with_limit. cbn [Py.bind].
  rewrite orphaned_defined. cbn [Py.bind].
  rewrite slice_to_nonneg by lia. cbn [Py.bind].
  rewrite !Nat2Z.id.
  eexists. split; [reflexivity |]. cbn.
  split; [reflexivity |]. split; [reflexivity |].
  split; [| split].
  - apply List.Forall_forall. intros item Hitem.
    apply in_map_iff in Hitem as (x & <- & _). cbn.
    rewrite length_take. lia.
  - rewrite length_take. lia.
  - rewrite length_take. lia.
Qed.

End Ranking.

(** ** The model on the examples of the repository *)

Example class_body_defaults :
  Config.class_body (fun _ => None) = Ok default_config.
Proof. reflexivity. Qed.

Example class_body_bad_ttl :
  Config.class_body
    (fun k => if String.eqb k "CACHE_TTL" then Some "5m" else None)
  = Raise (ValueError "invalid literal for int()").
Proof. reflexivity. Qed.

Example fetch_graph_structure_default_config :
  Resources.fetch_graph_structure (Ok sample_pages) sample_references
    sample_blocks (Config.attributes default_config)
  = Raise (AttributeError "MAX_LINKED_PAGES").
Proof. reflexivity. Qed.

Example analyse_sample :
  Resources.analyse sample_references sample_blocks sample_pages
  = {| Resources.namespaces := [("_root", ["A"; "B"; "C"; "D"; "E"])];
       Resources.orphaned_pages := ["A"];
       Resources.page_link_counts :=
         [("A", O); ("B", O); ("C", 1%nat); ("E", O)];
       Resources.logged := ["D"; "E"] |}.
Proof. vm_compute. reflexivity. Qed.

Example namespaces_of_names :
  Resources.namespaces
    (Resources.analyse sample_references sample_blocks
       (List.map (fun n => Resources.mkPage (Some n) false)
                 ["A/1"; "A/2"; "B/1"; "Root1"]))
  = [("A", ["A/1"; "A/2"]); ("B", ["B/1"]); ("_root", ["Root1"])].
Proof. vm_compute. reflexivity. Qed.

Example journal_name_shapes :
  Filesystem.is_journal_page_name "dec  12TH, 2024" = true
  /\ Filesystem.is_journal_page_name "December 1st, 2024" = false
  /\ Filesystem.is_journal_page_name "Dec 123, 2024" = false
  /\ Filesystem.is_journal_page_name "Parent/Child" = false.
Proof. repeat split; vm_compute; reflexivity. Qed.

Example strptime_rejects :
  Filesystem.strptime "Feb 30, 2024" "%b %d, %Y"
  = Raise (ValueError "day is out of range for month")
  /\ Filesystem.strptime "Dec 1, 20245" "%b %d, %Y"
     = Raise (ValueError "unconverted data remains")
  /\ Filesystem.strptime "Feb 29, 2024" "%b %d, %Y"
     = Ok (Filesystem.mkDate 2024 2 29).
Proof. repeat split; vm_compute; reflexivity. Qed.

Example unresolvable_name :
  Filesystem.get_page_file_path (Filesystem.on_disk sample_disk)
    "No such page" "graph" = None
  /\ Filesystem.get_page_file_path (Filesystem.on_disk sample_disk)
       "Parent/Child" "" = None
  /\ Filesystem.get_page_file_path (Filesystem.on_disk sample_disk)
       "Parent/Child" "elsewhere" = None.
Proof. repeat split; vm_compute; reflexivity. Qed.

(** ** More on the TTL cache *)

Section CacheBehaviour.

Import Cache.

Context {V W : Type}.
Variable now : W -> Z.

Implicit Types (self : ResourceCache V) (s : state W) (fetcher : callable V W).

Lemma is_cached_false_fetches self key fetcher s :
  is_cached now self key s = false ->
  get_or_fetch now self key fetcher s = fetch_and_store now self key fetcher s.
Proof.
  unfold is_cached, get_or_fetch.
  destruct (_cache self !! key) as [[data T] |]; [| reflexivity].
  intros ->. reflexivity.
Qed.

Lemma is_cached_true_returns self key fetcher s :
  is_cached now self key s = true ->
  exists data T, _cache self !! key = Some (data, T)
                 /\ get_or_fetch now self key fetcher s = (Ok data, self, s).
Proof.
  unfold is_cached, get_or_fetch.
  destruct (_cache self !! key) as [[data T] |]; [| discriminate].
  intros ->. exists data, T. split; reflexivity.
Qed.

(** [get_or_fetch] never touches the entry of another key, nor the TTL. *)
Theorem get_or_fetch_other_keys self key fetcher s k' :
  key <> k' ->
  _cache (get_or_fetch now self key fetcher s).1.2 !! k' = _cache self !! k'
  /\ _ttl (get_or_fetch now self key fetcher s).1.2 = _ttl self.
Proof.
  intros Hne.
  destruct (is_cached now self key s) eqn:E.
  - destruct (is_cached_true_returns self key fetcher s E) as (d & T & _ & ->).
    split; reflexivity.
  - rewrite (is_cached_false_fetches self key fetcher s E).
    unfold fetch_and_store, call.
    destruct (fetcher (world s)) as [[v | e] w']; simpl.
    + split; [apply lookup_insert_ne, Hne | reflexivity].
    + split; reflexivity.
Qed.

(** When no fresh entry exists and the fetcher raises, the exception
    reaches the caller after exactly one call and the cache is left as it
    was: nothing is stored, and an expired entry stays in place. *)
Theorem get_or_fetch_fetcher_raises self key fetcher s e w' :
  is_cached now self key s = false ->
  fetcher (world s) = (Raise e, w') ->
  get_or_fetch now self key fetcher s
  = (Raise e, self, {| world := w'; fetcher_calls := S (fetcher_calls s) |}).
Proof.
  intros Hc Hf. rewrite (is_cached_false_fetches self key fetcher s Hc).
  apply fetch_and_store_raises, Hf.
Qed.

(** [is_cached] predicts [get_or_fetch]: the fetcher is called (once)
    exactly when [is_cached] is false, and not at all when it is true. *)
Theorem is_cached_decides_fetch self key fetcher s :
  fetcher_calls (get_or_fetch now self key fetcher s).2
  = if is_cached now self key s then fetcher_calls s
    else S (fetcher_calls s).
Proof.
  destruct (is_cached now self key s) eqn:E.
  - destruct (is_cached_true_returns self key fetcher s E) as (d & T & _ & ->).
    reflexivity.
  - rewrite (is_cached_false_fetches self key fetcher s E).
    unfold fetch_and_store, call.
    destruct (fetcher (world s)) as [[v | e] w']; reflexivity.
Qed.

(** After a fetch that returned [v], the entry is fresh at once exactly
    when the TTL is positive: then a second call in the same state returns
    [v] and calls no fetcher; with a TTL of zero or less nothing is ever
    served from the cache. *)
Theorem get_or_fetch_again self key fetcher s v w' :
  is_cached now self key s = false ->
  fetcher (world s) = (Ok v, w') ->
  let c' := (get_or_fetch now self key fetcher s).1.2 in
  let s' := (get_or_fetch now self key fetcher s).2 in
  is_cached now c' key s' = (0 <? _ttl self)
  /\ (0 < _ttl self ->
      forall fetcher', get_or_fetch now c' key fetcher' s' = (Ok v, c', s'))
  /\ (_ttl self <= 0 ->
      forall fetcher',
        get_or_fetch now c' key fetcher' s'
        = fetch_and_store now c' key fetcher' s').
Proof.
  intros Hc Hf. cbv zeta.
  rewrite (is_cached_false_fetches self key fetcher s Hc).
  rewrite (fetch_and_store_returns now self key fetcher s v w' Hf). simpl.
  assert (Hfresh :
    is_cached now (store self key v (now w')) key
      {| world := w'; fetcher_calls := S (fetcher_calls s) |}
    = (0 <? _ttl self)).
  { unfold is_cached, store. simpl. rewrite lookup_insert_eq.
    rewrite Z.sub_diag. reflexivity. }
  split; [exact Hfresh | split].
  - intros Hpos fetcher'.
    apply (get_or_fetch_hit now _ key fetcher' _ v (now w')).
    + unfold store. simpl. apply lookup_insert_eq.
    + simpl. lia.
  - intros Hnonpos fetcher'. apply is_cached_false_fetches.
    rewrite Hfresh. apply Z.ltb_ge. exact Hnonpos.
Qed.

(** After [invalidate(k)], for any [k], and after [invalidate()], for every
    key, the next [get_or_fetch] of that key calls its fetcher once and
    returns what the fetcher returns or raises. *)
Theorem invalidate_forces_fetch self (arg : option string) key fetcher s :
  arg = Some key \/ arg = None ->
  is_cached now (invalidate self arg) key s = false
  /\ (get_or_fetch now (invalidate self arg) key fetcher s).1.1
     = (fetcher (world s)).1
  /\ (get_or_fetch now (invalidate self arg) key fetcher s).2
     = {| world := (fetcher (world s)).2;
          fetcher_calls := S (fetcher_calls s) |}.
Proof.
  intros Harg.
  assert (Hnone : _cache (invalidate self arg) !! key = None).
  { destruct Harg as [-> | ->]; [apply invalidate_forgets | apply lookup_empty]. }
  assert (Hc : is_cached now (invalidate self arg) key s = false)
    by (unfold is_cached; rewrite Hnone; reflexivity).
  split; [exact Hc |].
  rewrite (is_cached_false_fetches _ key fetcher s Hc).
  unfold fetch_and_store, call.
  destruct (fetcher (world s)) as [[v | e] w']; split; reflexivity.
Qed.

End CacheBehaviour.

Lemma get_or_fetch_other_keys_witness :
  Cache._cache
    (Cache.get_or_fetch clock_now warm_cache "j" slow_fetcher
       (Cache.mkState 100 0)).1.2 !! "k"
  = Some (7, 100)
  /\ Cache._ttl
       (Cache.get_or_fetch clock_now warm_cache "j" slow_fetcher
          (Cache.mkState 100 0)).1.2 = 300000000.
Proof.
  destruct (get_or_fetch_other_keys clock_now warm_cache "j" slow_fetcher
              (Cache.mkState 100 0) "k" ltac:(discriminate)) as [H1 H2].
  split.
  - rewrite H1. apply lookup_insert_eq.
  - rewrite H2. reflexivity.
Defined.

Lemma get_or_fetch_fetcher_raises_witness :
  Cache.get_or_fetch clock_now warm_cache "k"
    (fun w => (Raise (RuntimeError "HTTP 500"), w + 1))
    (Cache.mkState 300000100 0)
  = (Raise (RuntimeError "HTTP 500"), warm_cache, Cache.mkState 300000101 1).
Proof.
  apply (get_or_fetch_fetcher_raises clock_now warm_cache "k"
           (fun w => (Raise (RuntimeError "HTTP 500"), w + 1))
           (Cache.mkState 300000100 0)).
  - unfold Cache.is_cached, warm_cache, Cache.store. simpl.
    rewrite lookup_insert_eq. reflexivity.
  - reflexivity.
Defined.

Lemma get_or_fetch_again_witness :
  Cache.is_cached clock_now
    (Cache.get_or_fetch clock_now (Cache.__init__ 300) "k" slow_fetcher
       (Cache.mkState 100 0)).1.2
    "k"
    (Cache.get_or_fetch clock_now (Cache.__init__ 300) "k" slow_fetcher
       (Cache.mkState 100 0)).2
  = true.
Proof.
  apply (proj1 (get_or_fetch_again clock_now (Cache.__init__ 300) "k"
                  slow_fetcher (Cache.mkState 100 0) 42 5000100
                  eq_refl eq_refl)).
Defined.

Lemma invalidate_forces_fetch_witness :
  Cache.is_cached clock_now (Cache.invalidate warm_cache (Some "k")) "k"
    (Cache.mkState 101 0) = false
  /\ (Cache.get_or_fetch clock_now (Cache.invalidate warm_cache (Some "k"))
        "k" slow_fetcher (Cache.mkState 101 0)).1.1 = Ok 42
  /\ (Cache.get_or_fetch clock_now (Cache.invalidate warm_cache (Some "k"))
        "k" slow_fetcher (Cache.mkState 101 0)).2
     = Cache.mkState 5000101 1.
Proof.
  apply (invalidate_forces_fetch clock_now warm_cache (Some "k") "k"
           slow_fetcher (Cache.mkState 101 0)).
  left. reflexivity.
Defined.

Lemma invalidate_key_lookup_witness :
  Cache._cache (Cache.invalidate warm_cache (Some "k")) !! "k" = None
  /\ Cache._cache (Cache.invalidate warm_cache (Some "j")) !! "k"
     = Some (7, 100).
Proof.
  split.
  - rewrite (invalidate_key_lookup warm_cache "k" "k" eq_refl).
    rewrite decide_True by reflexivity. reflexivity.
  - rewrite (invalidate_key_lookup warm_cache "j" "k" eq_refl).
    rewrite decide_False by discriminate. apply lookup_insert_eq.
Defined.

(** ** More on sanitised file names *)

Section SafeNameBehaviour.

Import Str Filesystem.

Lemma sub_class_removes cls repl c s :
  in_class cls c = true ->
  contains_char c repl = false ->
  contains_char c (sub_class cls repl s) = false.
Proof.
  intros Hc Hrepl. induction s as [| d s IH]; [reflexivity |].
  cbn [sub_class]. destruct (in_class cls d) eqn:Hd.
  - rewrite contains_char_app, Hrepl. exact IH.
  - cbn [contains_char]. rewrite IH, orb_false_r.
    destruct (eqb_ascii d c) eqn:E; [| reflexivity].
    apply eqb_ascii_true in E. congruence.
Qed.

Lemma in_class_true_iff cls c : in_class cls c = true <-> In c cls.
Proof.
  unfold in_class. rewrite existsb_exists. split.
  - intros (d & Hd & E). apply eqb_ascii_true in E. subst d. exact Hd.
  - intros H. exists c. split; [exact H | apply eqb_ascii_true; reflexivity].
Qed.

Lemma safe_name_has_none page_name :
  Forall (fun c => contains_char c (safe_name page_name) = false)
         ("/"%char :: illegal_chars).
Proof.
  constructor; [apply safe_name_no_slash |].
  apply List.Forall_forall. intros c Hc. unfold safe_name.
  apply sub_class_removes; [apply in_class_true_iff, Hc |].
  simpl in Hc.
  repeat (destruct Hc as [<- | Hc]; [reflexivity |]). contradiction.
Qed.

(** A sanitised name contains no slash and none of the seven characters
    that are replaced, whatever the page name. *)
Theorem safe_name_clean page_name :
  Forall (fun c => contains_char c (safe_name page_name) = false)
         ("/"%char :: illegal_chars).
Proof. apply safe_name_has_none. Qed.

Lemma sanitize_fixed s :
  sanitize s = s <->
  contains_char "/" s = false
  /\ forall c, In c illegal_chars -> contains_char c s = false.
Proof.
  split.
  - intros H. rewrite <- safe_name_pointwise in H.
    pose proof (safe_name_has_none s) as Hclean. rewrite H in Hclean.
    inversion Hclean as [| ? ? Hs Hrest]; subst.
    split; [exact Hs |]. apply List.Forall_forall, Hrest.
  - induction s as [| d s IH]; [reflexivity |].
    intros [Hs Hill]. cbn [sanitize]. unfold sanitize_char.
    cbn [contains_char] in Hs. apply orb_false_iff in Hs as [Hd Hs].
    rewrite Hd.
    destruct (in_class illegal_chars d) eqn:Hin.
    + apply in_class_true_iff in Hin. specialize (Hill d Hin).
      cbn [contains_char] in Hill.
      assert (eqb_ascii d d = true) by (apply eqb_ascii_true; reflexivity).
      rewrite H in Hill. discriminate.
    + cbn [String.append]. f_equal. apply IH. split; [exact Hs |].
      intros c Hc. specialize (Hill c Hc). cbn [contains_char] in Hill.
      apply orb_false_iff in Hill as [_ Hill]. exact Hill.
Qed.

(** [safe_name] leaves a page name as it is exactly when the name has no
    slash and none of the replaced characters. *)
Theorem safe_name_fixed_iff page_name :
  safe_name page_name = page_name <->
  Forall (fun c => contains_char c page_name = false)
         ("/"%char :: illegal_chars).
Proof.
  rewrite safe_name_pointwise, sanitize_fixed. split.
  - intros [Hs Hill]. constructor; [exact Hs |].
    apply List.Forall_forall, Hill.
  - intros H. inversion H as [| ? ? Hs Hrest]; subst.
    split; [exact Hs |]. apply List.Forall_forall, Hrest.
Qed.

Lemma sanitize_app a b : sanitize (a +:+ b) = sanitize a +:+ sanitize b.
Proof.
  induction a as [| c a IH]; [reflexivity |].
  change (sanitize (String c a +:+ b))
    with (sanitize_char c +:+ sanitize (a +:+ b)).
  change (sanitize (String c a)) with (sanitize_char c +:+ sanitize a).
  rewrite IH. symmetry. apply append_assoc.
Qed.

(** Different page names can share one file name: a slash and three
    underscores are sanitised alike, and so are a replaced character and
    an underscore, wherever they stand in the name. *)
Theorem safe_name_collisions a b :
  safe_name (a +:+ "/" +:+ b) = safe_name (a +:+ "___" +:+ b)
  /\ Forall (fun c => safe_name (a +:+ String c b) = safe_name (a +:+ "_" +:+ b))
            illegal_chars.
Proof.
  split.
  - rewrite !safe_name_pointwise, !sanitize_app. reflexivity.
  - apply List.Forall_forall. intros c Hc.
    rewrite !safe_name_pointwise.
    change (String c b) with (String c "" +:+ b).
    rewrite !sanitize_app. f_equal. f_equal.
    simpl in Hc.
    repeat (destruct Hc as [<- | Hc]; [reflexivity |]). contradiction.
Qed.

End SafeNameBehaviour.

(** ** More on the page loop of the graph-structure analysis *)

Section NamespaceBehaviour.

Import Str Config Resources.

(** [rsplit('/', 1)[0]]: the namespace is what precedes the last slash,
    so a nested name keeps its outer levels; a name without a slash has
    none. *)
Theorem before_last_slash_spec s :
  match before_last_slash s with
  | Some h => exists t, s = h +:+ "/" +:+ t /\ contains_char "/" t = false
  | None => contains_char "/" s = false
  end.
Proof.
  induction s as [| c s IH]; [reflexivity |].
  cbn [before_last_slash]. destruct (before_last_slash s) as [h |].
  - destruct IH as (t & -> & Ht). exists t. split; [reflexivity | exact Ht].
  - destruct (eqb_ascii c "/") eqn:E.
    + apply eqb_ascii_true in E. subst c. exists s. split; [reflexivity | exact IH].
    + cbn [contains_char]. rewrite E, IH. reflexivity.
Qed.

Lemma keys_dict_set {A} (d : list (string * A)) k v :
  List.map fst (dict_set d k v)
  = if existsb (String.eqb k) (List.map fst d) then List.map fst d
    else (List.map fst d ++ [k])%list.
Proof.
  induction d as [| [k0 v0] d IH]; [reflexivity |].
  cbn [dict_set List.map fst existsb].
  destruct (String.eqb_spec k k0) as [-> | Hne]; [reflexivity |].
  cbn [List.map fst orb]. rewrite IH.
  destruct (existsb _ _); reflexivity.
Qed.

Lemma NoDup_snoc (l : list string) k :
  List.NoDup l -> ~ In k l -> List.NoDup (l ++ [k])%list.
Proof.
  intros Hl Hk. induction l as [| x l IH]; simpl.
  - constructor; [intros [] | constructor].
  - apply List.NoDup_cons_iff in Hl as [Hx Hl]. constructor.
    + rewrite in_app_iff. intros [H | [-> | []]].
      * apply Hx, H.
      * apply Hk. left. reflexivity.
    + apply IH; [exact Hl |]. intros H. apply Hk. right. exact H.
Qed.

Lemma NoDup_dict_set {A} (d : list (string * A)) k v :
  List.NoDup (List.map fst d) -> List.NoDup (List.map fst (dict_set d k v)).
Proof.
  intros Hd. rewrite keys_dict_set.
  destruct (existsb (String.eqb k) (List.map fst d)) eqn:E; [exact Hd |].
  apply NoDup_snoc; [exact Hd |]. intros Hin.
  assert (existsb (String.eqb k) (List.map fst d) = true); [| congruence].
  apply existsb_exists. exists k. split; [exact Hin | apply String.eqb_refl].
Qed.

Lemma bucket_sizes_set d k w :
  (bucket_sizes (dict_set d k w) + List.length (default [] (assoc k d))
   = bucket_sizes d + List.length w)%nat.
Proof.
  unfold bucket_sizes. induction d as [| [k0 v0] d IH].
  - simpl. lia.
  - cbn [assoc dict_set]. destruct (String.eqb k k0) eqn:E.
    + simpl. lia.
    + simpl in *. lia.
Qed.

Lemma bucket_sizes_append d k v :
  bucket_sizes (dict_append d k v) = S (bucket_sizes d).
Proof.
  unfold dict_append.
  pose proof (bucket_sizes_set d k (default [] (assoc k d) ++ [v])) as H.
  rewrite length_app in H. simpl in H. lia.
Qed.

End NamespaceBehaviour.

Section LoopInvariants.

Import Str Config Resources.

Context {ref : Type}.
Variable get_page_linked_references : string -> result (list ref).
Variable get_page_blocks : string -> result (list block).

Abbreviation process_page :=
  (Resources.process_page get_page_linked_references get_page_blocks).
Abbreviation analyse :=
  (Resources.analyse get_page_linked_references get_page_blocks).
Abbreviation is_orphan :=
  (Resources.is_orphan get_page_linked_references get_page_blocks).
Abbreviation fails :=
  (Resources.fails get_page_linked_references get_page_blocks).

Lemma process_page_namespaces a p :
  namespaces (process_page a p)
  = dict_append (namespaces a) (namespace_of (default "" (name p)))
                (default "" (name p)).
Proof.
  unfold Resources.process_page, try_references, namespace_of.
  destruct (get_page_linked_references _) as [refs | e]; simpl;
    [| reflexivity].
  destruct (List.length refs =? 0)%nat; simpl; [| reflexivity].
  destruct (get_page_blocks _) as [blocks | e]; simpl; [| reflexivity].
  destruct (has_outgoing blocks); reflexivity.
Qed.

Lemma assoc_dict_append d k k' v :
  assoc k (dict_append d k' v)
  = if String.eqb k k' then Some (default [] (assoc k d) ++ [v])%list
    else assoc k d.
Proof.
  unfold dict_append. rewrite assoc_dict_set.
  destruct (String.eqb_spec k k') as [-> | Hne]; reflexivity.
Qed.

Lemma loop_namespaces l a k :
  assoc k (namespaces (fold_left process_page l a))
  = merge (assoc k (namespaces a)) (group k (page_names l)).
Proof.
  revert a. induction l as [| p l IH]; intros a.
  - simpl. destruct (assoc k (namespaces a)); simpl;
      [rewrite app_nil_r |]; reflexivity.
  - cbn [fold_left]. rewrite IH, process_page_namespaces, assoc_dict_append.
    unfold group. cbn [page_names List.map List.filter].
    rewrite (String.eqb_sym k).
    destruct (String.eqb (namespace_of (default "" (name p))) k).
    + destruct (assoc k (namespaces a)) as [g |]; simpl;
        [rewrite <- app_assoc |]; reflexivity.
    + reflexivity.
Qed.

Lemma loop_namespace_keys l a :
  List.NoDup (List.map fst (namespaces a)) ->
  List.NoDup (List.map fst (namespaces (fold_left process_page l a))).
Proof.
  revert a. induction l as [| p l IH]; intros a Ha; [exact Ha |].
  cbn [fold_left]. apply IH. rewrite process_page_namespaces.
  apply NoDup_dict_set, Ha.
Qed.

Lemma loop_bucket_sizes l a :
  bucket_sizes (namespaces (fold_left process_page l a))
  = (bucket_sizes (namespaces a) + List.length l)%nat.
Proof.
  revert a. induction l as [| p l IH]; intros a; simpl; [lia |].
  rewrite IH, process_page_namespaces, bucket_sizes_append. lia.
Qed.

(** Every page is filed in exactly one bucket: the bucket of a namespace
    holds the names with that namespace in the order of iteration, a
    namespace has one bucket, and the buckets together hold as many names
    as there are pages. *)
Theorem namespaces_partition all_pages :
  (forall k,
      assoc k (namespaces (analyse all_pages))
      = match group k (page_names all_pages) with
        | [] => None
        | g => Some g
        end)
  /\ List.NoDup (List.map fst (namespaces (analyse all_pages)))
  /\ bucket_sizes (namespaces (analyse all_pages)) = List.length all_pages.
Proof.
  unfold Resources.analyse. split; [| split].
  - intros k. rewrite loop_namespaces. simpl.
    destruct (group k (page_names all_pages)); reflexivity.
  - apply loop_namespace_keys. constructor.
  - rewrite loop_bucket_sizes. reflexivity.
Qed.

Lemma loop_count_keys l a :
  List.NoDup (List.map fst (page_link_counts a)) ->
  List.NoDup (List.map fst (page_link_counts (fold_left process_page l a))).
Proof.
  revert a. induction l as [| p l IH]; intros a Ha; [exact Ha |].
  cbn [fold_left]. apply IH. rewrite process_page_counts.
  destruct (get_page_linked_references _); [| exact Ha].
  apply NoDup_dict_set, Ha.
Qed.

(** The link counts hold each page at most once, however often it is
    listed, and they hold a page exactly when it is listed and its
    references could be fetched, with the number of those references. *)
Theorem page_link_counts_invariant all_pages :
  List.NoDup (List.map fst (page_link_counts (analyse all_pages)))
  /\ forall n c,
       assoc n (page_link_counts (analyse all_pages)) = Some c
       <-> In n (page_names all_pages)
           /\ exists refs, get_page_linked_references n = Ok refs
                           /\ c = List.length refs.
Proof.
  split.
  - unfold Resources.analyse. apply loop_count_keys. constructor.
  - intros n c. unfold Resources.analyse. rewrite loop_counts. simpl.
    rewrite in_page_names.
    destruct (get_page_linked_references n) as [refs | e].
    + destruct (existsb (String.eqb n) (page_names all_pages)).
      * split.
        -- intros [= <-]. split; [reflexivity |]. exists refs. auto.
        -- intros (_ & r & [= <-] & ->). reflexivity.
      * split; [discriminate | intros [H _]; discriminate].
    + split; [discriminate |]. intros (_ & r & H & _). discriminate.
Qed.

(** The orphan list and the error log are the page names, in the order
    of iteration and as often as they are listed, that are orphans and
    that failed; no page is on both. *)
Theorem analysis_lists_exact all_pages :
  orphaned_pages (analyse all_pages)
  = List.filter is_orphan (page_names all_pages)
  /\ logged (analyse all_pages) = List.filter fails (page_names all_pages)
  /\ forall n, In n (orphaned_pages (analyse all_pages)) ->
               ~ In n (logged (analyse all_pages)).
Proof.
  split; [apply analyse_orphaned | split; [apply analyse_logged |]].
  intros n. rewrite analyse_orphaned, analyse_logged, !filter_In.
  intros [_ Ho] [_ Hf].
  unfold Resources.is_orphan in Ho. unfold Resources.fails in Hf.
  destruct (get_page_linked_references n); [| discriminate].
  destruct (List.length a =? 0)%nat; [| discriminate].
  destruct (get_page_blocks n); discriminate.
Qed.

End LoopInvariants.

(** The ranking of the most-linked pages is a rearrangement of the link
    counts in descending order of count in which pages of equal count
    keep the order of their first appearance. *)
Theorem most_linked_order (counts : list (string * nat)) :
  Permutation (Resources.sorted_by_count counts) counts
  /\ StronglySorted Resources.by_count_desc (Resources.sorted_by_count counts)
  /\ forall c,
       List.filter (fun item => (snd item =? c)%nat)
                   (Resources.sorted_by_count counts)
       = List.filter (fun item => (snd item =? c)%nat) counts.
Proof.
  split; [apply sorted_by_count_perm | split].
  - apply sorted_by_count_sorted.
  - intros c. apply sorted_by_count_stable.
Qed.

(** ** Directories and files of a graph *)

Section PathOrder.

Import Filesystem.

Lemma ascii_compare_refl a : Ascii.compare a a = Eq.
Proof. apply N.compare_refl. Qed.

Lemma ascii_compare_lt_trans a b c :
  Ascii.compare a b = Lt -> Ascii.compare b c = Lt -> Ascii.compare a c = Lt.
Proof.
  unfold Ascii.compare. rewrite !N.compare_lt_iff. apply N.lt_trans.
Qed.

Lemma string_compare_refl s : String.compare s s = Eq.
Proof.
  induction s as [| a s IH]; [reflexivity |].
  simpl. rewrite ascii_compare_refl. exact IH.
Qed.

Lemma string_compare_lt_trans s t u :
  String.compare s t = Lt -> String.compare t u = Lt -> String.compare s u = Lt.
Proof.
  revert t u. induction s as [| a s IH]; intros [| b t] [| c u]; simpl;
    try discriminate; try reflexivity.
  destruct (Ascii.compare a b) eqn:Eab; try discriminate;
    destruct (Ascii.compare b c) eqn:Ebc; try discriminate; intros H1 H2.
  - apply Ascii.compare_eq_iff in Eab, Ebc. subst.
    rewrite ascii_compare_refl. eapply IH; eassumption.
  - apply Ascii.compare_eq_iff in Eab. subst. rewrite Ebc. reflexivity.
  - apply Ascii.compare_eq_iff in Ebc. subst. rewrite Eab. reflexivity.
  - rewrite (ascii_compare_lt_trans a b c Eab Ebc). reflexivity.
Qed.

Lemma path_compare_refl p : path_compare p p = Eq.
Proof.
  induction p as [| a p IH]; [reflexivity |].
  simpl. rewrite string_compare_refl. exact IH.
Qed.

Lemma path_compare_eq p q : path_compare p q = Eq -> p = q.
Proof.
  revert q. induction p as [| a p IH]; intros [| b q]; simpl;
    try discriminate; [reflexivity |].
  destruct (String.compare a b) eqn:E; try discriminate.
  intros H. apply String.compare_eq_iff in E. subst.
  f_equal. apply IH, H.
Qed.

Lemma path_compare_antisym p q :
  path_compare p q = CompOpp (path_compare q p).
Proof.
  revert q. induction p as [| a p IH]; intros [| b q]; simpl;
    try reflexivity.
  rewrite String.compare_antisym.
  destruct (String.compare b a); simpl; [apply IH | reflexivity | reflexivity].
Qed.

Lemma path_compare_lt_trans p q r :
  path_compare p q = Lt -> path_compare q r = Lt -> path_compare p r = Lt.
Proof.
  revert q r. induction p as [| a p IH]; intros [| b q] [| c r]; simpl;
    try discriminate; try reflexivity.
  destruct (String.compare a b) eqn:Eab; try discriminate;
    destruct (String.compare b c) eqn:Ebc; try discriminate; intros H1 H2.
  - apply String.compare_eq_iff in Eab, Ebc. subst.
    rewrite string_compare_refl. eapply IH; eassumption.
  - apply String.compare_eq_iff in Eab. subst. rewrite Ebc. reflexivity.
  - apply String.compare_eq_iff in Ebc. subst. rewrite Eab. reflexivity.
  - rewrite (string_compare_lt_trans a b c Eab Ebc). reflexivity.
Qed.

Lemma path_ltb_asym p q : path_ltb p q = true -> path_ltb q p = false.
Proof.
  unfold path_ltb. rewrite (path_compare_antisym q p).
  destruct (path_compare p q); simpl; congruence.
Qed.

(** Not being greater is transitive. *)
Lemma path_le_trans p q r :
  path_ltb q p = false -> path_ltb r q = false -> path_ltb r p = false.
Proof.
  unfold path_ltb. intros Hqp Hrq.
  destruct (path_compare r p) eqn:Erp; try reflexivity. exfalso.
  destruct (path_compare q p) eqn:Eqp; try discriminate.
  - apply path_compare_eq in Eqp. subst q. rewrite Erp in Hrq. discriminate.
  - assert (Hpq : path_compare p q = Lt)
      by (rewrite path_compare_antisym, Eqp; reflexivity).
    rewrite (path_compare_lt_trans r p q Erp Hpq) in Hrq. discriminate.
Qed.

Lemma insert_path_perm x l : Permutation (insert_path x l) (x :: l).
Proof.
  induction l as [| y l IH]; simpl; [reflexivity |].
  destruct (path_ltb y x); [| reflexivity].
  rewrite IH. apply perm_swap.
Qed.

Lemma sorted_paths_perm l : Permutation (sorted_paths l) l.
Proof.
  induction l as [| x l IH]; [reflexivity |].
  change (sorted_paths (x :: l)) with (insert_path x (sorted_paths l)).
  rewrite insert_path_perm. apply perm_skip, IH.
Qed.

Lemma insert_path_sorted x l :
  StronglySorted (fun p q => path_ltb q p = false) l ->
  StronglySorted (fun p q => path_ltb q p = false) (insert_path x l).
Proof.
  induction 1 as [| y l Hs IH Hy]; simpl.
  - constructor; constructor.
  - destruct (path_ltb y x) eqn:E.
    + constructor; [exact IH |].
      apply List.Forall_forall. intros z Hz.
      apply (Permutation_in _ (insert_path_perm x l)) in Hz.
      destruct Hz as [<- | Hz].
      * apply path_ltb_asym, E.
      * exact (proj1 (List.Forall_forall _ _) Hy z Hz).
    + constructor.
      * constructor; assumption.
      * constructor; [exact E |].
        apply List.Forall_forall. intros z Hz.
        apply (path_le_trans x y z E).
        exact (proj1 (List.Forall_forall _ _) Hy z Hz).
Qed.

Lemma sorted_paths_sorted l :
  StronglySorted (fun p q => path_ltb q p = false) (sorted_paths l).
Proof.
  induction l as [| x l IH]; [constructor |].
  apply insert_path_sorted, IH.
Qed.

End PathOrder.

Section DirectoryBehaviour.

Import Filesystem.

Variable path_exists : Path -> bool.
Variable glob : Path -> string -> list (list string).

Lemma assoc_filter_keys {A} (f : A -> bool) (l : list (string * A)) k :
  List.NoDup (List.map fst l) ->
  Config.assoc k (List.filter (fun item => f (snd item)) l)
  = match Config.assoc k l with
    | Some v => if f v then Some v else None
    | None => None
    end.
Proof.
  induction l as [| [k0 v0] l IH]; [reflexivity |].
  intros Hnd. apply List.NoDup_cons_iff in Hnd as [Hk0 Hnd].
  cbn [List.filter snd Config.assoc].
  destruct (String.eqb_spec k k0) as [-> | Hne].
  - destruct (f v0) eqn:Ef.
    + cbn [Config.assoc]. rewrite String.eqb_refl. reflexivity.
    + rewrite (IH Hnd).
      destruct (Config.assoc k0 l) as [v |] eqn:Ea; [| reflexivity].
      exfalso. apply Hk0. clear -Ea.
      induction l as [| [k1 v1] l IHl]; [discriminate |].
      cbn [Config.assoc] in Ea. cbn [List.map fst].
      destruct (String.eqb_spec k0 k1) as [-> | Hne]; [left; reflexivity |].
      right. apply IHl, Ea.
  - destruct (f v0).
    + cbn [Config.assoc].
      destruct (String.eqb_spec k k0); [contradiction | apply IH, Hnd].
    + apply IH, Hnd.
Qed.

Lemma get_graph_directories_lookup graph_path name :
  Config.assoc name (get_graph_directories path_exists graph_path)
  = match Config.assoc name
            [ ("root", Path_of graph_path);
              ("pages", (Path_of graph_path ++ ["pages"])%list);
              ("journals", (Path_of graph_path ++ ["journals"])%list);
              ("assets", (Path_of graph_path ++ ["assets"])%list);
              ("logseq", (Path_of graph_path ++ [".logseq"])%list) ] with
    | Some p => if path_exists p then Some p else None
    | None => None
    end.
Proof.
  unfold get_graph_directories. cbv zeta.
  rewrite assoc_filter_keys; [reflexivity |].
  cbn [standard_directories List.map fst].
  repeat (constructor; [simpl; intuition discriminate |]). constructor.
Qed.

(** [get_graph_directories] lists a standard directory exactly when it
    exists, under its name and with its path below the graph root; every
    path it lists exists, and no other name is listed. *)
Theorem get_graph_directories_spec graph_path :
  (forall name,
      Config.assoc name (get_graph_directories path_exists graph_path)
      = match Config.assoc name
                [ ("root", Path_of graph_path);
                  ("pages", (Path_of graph_path ++ ["pages"])%list);
                  ("journals", (Path_of graph_path ++ ["journals"])%list);
                  ("assets", (Path_of graph_path ++ ["assets"])%list);
                  ("logseq", (Path_of graph_path ++ [".logseq"])%list) ] with
        | Some p => if path_exists p then Some p else None
        | None => None
        end)
  /\ Forall (fun item => path_exists (snd item) = true)
            (get_graph_directories path_exists graph_path).
Proof.
  split.
  - intros name. apply get_graph_directories_lookup.
  - apply List.Forall_forall. intros item Hitem.
    apply filter_In in Hitem as [_ H]. exact H.
Qed.

(** [scan_graph_files] returns the matches of ["*" + extension] directly
    in those of the directories [pages] and [journals] that exist, each
    once per match and nothing else, in ascending order of their paths;
    without either directory the result is empty. *)
Theorem scan_graph_files_spec graph_path extension :
  Permutation
    (scan_graph_files path_exists glob graph_path extension)
    ((if path_exists (Path_of graph_path ++ ["pages"])%list
      then glob_paths glob (Path_of graph_path ++ ["pages"])%list
                      ("*" +:+ extension)
      else [])
     ++ (if path_exists (Path_of graph_path ++ ["journals"])%list
         then glob_paths glob (Path_of graph_path ++ ["journals"])%list
                         ("*" +:+ extension)
         else []))%list
  /\ StronglySorted (fun p q => path_ltb q p = false)
       (scan_graph_files path_exists glob graph_path extension)
  /\ (path_exists (Path_of graph_path ++ ["pages"])%list = false ->
      path_exists (Path_of graph_path ++ ["journals"])%list = false ->
      scan_graph_files path_exists glob graph_path extension = []).
Proof.
  unfold scan_graph_files. cbv zeta. cbn [fold_left].
  change (Path_of graph_path // "pages")
    with (Path_of graph_path ++ ["pages"])%list.
  change (Path_of graph_path // "journals")
    with (Path_of graph_path ++ ["journals"])%list.
  split; [| split].
  - rewrite sorted_paths_perm.
    destruct (path_exists (Path_of graph_path ++ ["pages"])%list);
      destruct (path_exists (Path_of graph_path ++ ["journals"])%list);
      cbn [app]; rewrite ?app_nil_r; reflexivity.
  - apply sorted_paths_sorted.
  - intros -> ->. reflexivity.
Qed.

End DirectoryBehaviour.

(** ** Configuration check and page resolution together *)

Section ValidateBehaviour.

Import Filesystem Config.

Variable path_exists : Path -> bool.

Lemma get_page_file_path_exists page_name graph_path p :
  get_page_file_path path_exists page_name graph_path = Some p ->
  path_exists p = true.
Proof.
  unfold get_page_file_path.
  destruct (negb (Py.str_truthy graph_path) || _); [discriminate |].
  destruct (path_exists (Path_of graph_path // "pages" // _)) eqn:Hp;
    [intros [= <-]; exact Hp |].
  destruct (path_exists (Path_of graph_path // "journals" // _)) eqn:Hj;
    [intros [= <-]; exact Hj |].
  destruct (is_journal_page_name page_name); [| discriminate].
  destruct (convert_journal_name_to_path _ _ _) as [q |]; [| discriminate].
  destruct (path_exists q) eqn:Hq; [| discriminate].
  intros [= <-]. exact Hq.
Qed.

(** A configuration that [validate] accepts and that has a graph path
    passes the root check of the resolver: [get_page_file_path] then
    answers [None] only for a page that has no file of its sanitised name
    in [pages] or in [journals]. *)
Theorem validate_guards_resolver c graph_path :
  validate path_exists c = Ok tt ->
  graph_path_of c = Some graph_path ->
  os_path_exists path_exists graph_path = true
  /\ forall page_name,
       get_page_file_path path_exists page_name graph_path = None ->
       path_exists (Path_of graph_path // "pages"
                    // (safe_name page_name +:+ ".md")) = false
       /\ path_exists (Path_of graph_path // "journals"
                       // (safe_name page_name +:+ ".md")) = false.
Proof.
  unfold validate, graph_path_of.
  destruct (LOGSEQ_GRAPH_PATH c) as [p |]; [| discriminate].
  destruct (Py.str_truthy p) eqn:Ht; [| discriminate].
  simpl. destruct (os_path_exists path_exists p) eqn:Hroot; [| discriminate].
  intros _ [= <-]. split; [exact Hroot |].
  intros page_name Hnone.
  destruct (path_exists (Path_of p // "pages" // _)) eqn:Hp.
  - rewrite (get_page_file_path_in_pages path_exists page_name p Hroot Hp)
      in Hnone. discriminate.
  - split; [reflexivity |].
    destruct (path_exists (Path_of p // "journals" // _)) eqn:Hj;
      [| reflexivity].
    rewrite (get_page_file_path_in_journals path_exists page_name p
               Hroot Hp Hj) in Hnone. discriminate.
Qed.

End ValidateBehaviour.

Lemma validate_guards_resolver_witness :
  Filesystem.os_path_exists (Filesystem.on_disk sample_disk) "graph" = true
  /\ forall page_name,
       Filesystem.get_page_file_path (Filesystem.on_disk sample_disk)
         page_name "graph" = None ->
       Filesystem.on_disk sample_disk
         (Filesystem.truediv (Filesystem.truediv (Filesystem.Path_of "graph") "pages")
            (Filesystem.safe_name page_name +:+ ".md")) = false
       /\ Filesystem.on_disk sample_disk
            (Filesystem.truediv
               (Filesystem.truediv (Filesystem.Path_of "graph") "journals")
               (Filesystem.safe_name page_name +:+ ".md")) = false.
Proof.
  apply (validate_guards_resolver (Filesystem.on_disk sample_disk)
           {| Config.LOGSEQ_API_URL := "http://localhost:12315";
              Config.LOGSEQ_TOKEN := None;
              Config.LOGSEQ_GRAPH_PATH := Some "graph";
              Config.CACHE_TTL := 300;
              Config.MAX_BATCH_SIZE := 50;
              Config.REQUEST_TIMEOUT := 30 |} "graph").
  - reflexivity.
  - reflexivity.
Defined.

(** ** The fetcher of the recent pages *)

Section RecentBehaviour.

Import Config Filesystem.

Context {float : Type}.
Variable round_mb : Z -> float.
Variable fromtimestamp_isoformat : float -> result string.
Variable stat : Path -> result (@stat_result float).
Variable path_exists : Path -> bool.
Variable number_lt : @number float -> @number float -> bool.
Variable get_all_pages : result (list Resources.page).
Variable config : Config.

Abbreviation sort_recent := (RecentPages.sort_recent number_lt).
Abbreviation insert_recent := (RecentPages.insert_recent number_lt).
Abbreviation with_timestamp :=
  (RecentPages.with_timestamp round_mb fromtimestamp_isoformat stat path_exists).
Abbreviation with_timestamps :=
  (RecentPages.with_timestamps round_mb fromtimestamp_isoformat stat path_exists).
Abbreviation resolved :=
  (RecentPages.resolved round_mb fromtimestamp_isoformat stat path_exists).
Abbreviation newest_first := (RecentPages.newest_first number_lt).
Abbreviation fetch_recent_pages :=
  (RecentPages.fetch_recent_pages round_mb fromtimestamp_isoformat stat
     path_exists number_lt get_all_pages config).

(** A record with [exists = true] comes from a successful [stat]. *)
Lemma metadata_exists_inv file_path m :
  get_file_metadata round_mb fromtimestamp_isoformat stat file_path = Ok m ->
  exists_ m = true ->
  exists st md cd,
    stat file_path = Ok st
    /\ fromtimestamp_isoformat (st_mtime st) = Ok md
    /\ fromtimestamp_isoformat (st_ctime st) = Ok cd
    /\ m = {| size := st_size st;
              size_mb := Float (round_mb (st_size st));
              modified_time := Float (st_mtime st);
              created_time := Float (st_ctime st);
              modified_date := Some md;
              created_date := Some cd;
              exists_ := true |}.
Proof.
  unfold get_file_metadata, try_stat, Py.bind.
  destruct (stat file_path) as [st | e]; cbn.
  - destruct (fromtimestamp_isoformat (st_mtime st)) as [md | e] eqn:Hm; cbn.
    + destruct (fromtimestamp_isoformat (st_ctime st)) as [cd | e] eqn:Hc; cbn.
      * intros [= <-] _. exists st, md, cd. auto.
      * destruct (Py.is_OSError e); [| discriminate].
        intros [= <-]. discriminate.
    + destruct (Py.is_OSError e); [| discriminate].
      intros [= <-]. discriminate.
  - destruct (Py.is_OSError e); [| discriminate].
    intros [= <-]. discriminate.
Qed.

Lemma with_timestamp_resolved graph_path p l :
  with_timestamp graph_path p = Ok l ->
  Forall (resolved graph_path [p]) l.
Proof.
  unfold RecentPages.with_timestamp.
  destruct (get_page_file_path _ _ _) as [fp |] eqn:Hfp;
    [| intros [= <-]; constructor].
  unfold Py.bind.
  destruct (get_file_metadata _ _ _ fp) as [m | e] eqn:Hm; [| discriminate].
  destruct (exists_ m) eqn:Hex; intros [= <-]; constructor; [| constructor].
  destruct (metadata_exists_inv fp m Hm Hex) as (st & md & cd & Hs & Hmd & _ & ->).
  split; [left; reflexivity |]. exists fp, st, md. cbn.
  repeat split; try assumption.
  apply (get_page_file_path_exists _ _ _ _ Hfp).
Qed.

Lemma resolved_weaken graph_path pages pages' i :
  (forall p, In p pages -> In p pages') ->
  resolved graph_path pages i -> resolved graph_path pages' i.
Proof. intros Hsub [Hin H]. split; [apply Hsub, Hin | exact H]. Qed.

Lemma with_timestamps_resolved graph_path pages l :
  with_timestamps graph_path pages = Ok l ->
  Forall (resolved graph_path pages) l.
Proof.
  revert l. induction pages as [| p pages IH]; intros l.
  - intros [= <-]. constructor.
  - cbn [RecentPages.with_timestamps]. unfold Py.bind.
    destruct (with_timestamp graph_path p) as [here |] eqn:Hh; [| discriminate].
    destruct (with_timestamps graph_path pages) as [rest |]; [| discriminate].
    intros [= <-]. apply List.Forall_app. split.
    + eapply List.Forall_impl; [| apply (with_timestamp_resolved _ _ _ Hh)].
      intros i. apply resolved_weaken. intros q [<- | []]. left. reflexivity.
    + eapply List.Forall_impl; [| apply IH; reflexivity].
      intros i. apply resolved_weaken. intros q Hq. right. exact Hq.
Qed.

Lemma insert_recent_perm x l : Permutation (insert_recent x l) (x :: l).
Proof.
  induction l as [| y l IH]; simpl; [reflexivity |].
  destruct (number_lt _ _); [| reflexivity].
  rewrite IH. apply perm_swap.
Qed.

Lemma sort_recent_perm l : Permutation (sort_recent l) l.
Proof.
  induction l as [| x l IH]; [reflexivity |].
  change (sort_recent (x :: l)) with (insert_recent x (sort_recent l)).
  rewrite insert_recent_perm. apply perm_skip, IH.
Qed.

Hypothesis lt_asym :
  forall a b, number_lt a b = true -> number_lt b a = false.
Hypothesis ge_trans :
  forall a b c,
    number_lt a b = false -> number_lt b c = false -> number_lt a c = false.

Lemma insert_recent_sorted x l :
  StronglySorted newest_first l ->
  StronglySorted newest_first (insert_recent x l).
Proof.
  induction 1 as [| y l Hs IH Hy]; simpl.
  - constructor; constructor.
  - unfold RecentPages.sort_key.
    destruct (number_lt (RecentPages.modified_time x)
                (RecentPages.modified_time y)) eqn:E.
    + constructor; [exact IH |].
      apply List.Forall_forall. intros z Hz.
      apply (Permutation_in _ (insert_recent_perm x l)) in Hz.
      destruct Hz as [<- | Hz].
      * apply lt_asym, E.
      * exact (proj1 (List.Forall_forall _ _) Hy z Hz).
    + constructor.
      * constructor; assumption.
      * constructor; [exact E |].
        apply List.Forall_forall. intros z Hz.
        apply (ge_trans _ (RecentPages.modified_time y) _ E).
        exact (proj1 (List.Forall_forall _ _) Hy z Hz).
Qed.

Lemma sort_recent_sorted l : StronglySorted newest_first (sort_recent l).
Proof.
  induction l as [| x l IH]; [constructor |].
  apply insert_recent_sorted, IH.
Qed.

Lemma StronglySorted_take {A} (R : A -> A -> Prop) n l :
  StronglySorted R l -> StronglySorted R (take n l).
Proof.
  intros H. revert n. induction H as [| x l Hs IH Hx]; intros [| n]; simpl;
    try constructor.
  - apply IH.
  - apply List.Forall_forall. intros z Hz.
    apply (proj1 (List.Forall_forall _ _) Hx).
    apply list_elem_of_In. apply list_elem_of_In in Hz.
    eapply (subseteq_take n l), Hz.
Qed.

(** With a graph path, what [fetch_recent_pages] returns is the first 20
    entries of the resolvable pages ordered from the newest file to the
    oldest: at most 20 entries, each for one of the pages whose file
    [get_page_file_path] found and whose [stat] succeeded, no entry
    followed by one with a later modification time, and none left out
    while there are fewer than 20. *)
Theorem fetch_recent_pages_with_files graph_path pages l :
  graph_path_of config = Some graph_path ->
  get_all_pages = Ok pages ->
  snd fetch_recent_pages = Ok l ->
  exists eligible ranked,
    with_timestamps graph_path pages = Ok eligible
    /\ Permutation ranked eligible
    /\ StronglySorted newest_first ranked
    /\ l = List.map RecentPages.WithFile (take 20 ranked)
    /\ (List.length l <= 20)%nat
    /\ Forall (resolved graph_path pages) (take 20 ranked).
Proof.
  intros Hg Hp. unfold RecentPages.fetch_recent_pages. rewrite Hg, Hp.
  cbn [snd Py.bind].
  destruct (with_timestamps graph_path pages) as [eligible | e] eqn:He;
    [| discriminate].
  cbn [Py.bind]. intros [= <-].
  exists eligible, (sort_recent eligible).
  split; [reflexivity | split; [apply sort_recent_perm | split]].
  - apply sort_recent_sorted.
  - split; [reflexivity | split].
    + rewrite length_map, length_take. unfold RecentPages.limit. lia.
    + apply List.Forall_forall. intros i Hi.
      pose proof (with_timestamps_resolved _ _ _ He) as Hall.
      apply (proj1 (List.Forall_forall _ _) Hall).
      apply (Permutation_in _ (sort_recent_perm eligible)).
      apply list_elem_of_In. apply list_elem_of_In in Hi.
      eapply (subseteq_take 20 _), Hi.
Qed.

End RecentBehaviour.

Lemma sample_lt_asym a b :
  sample_number_lt a b = true -> sample_number_lt b a = false.
Proof.
  unfold sample_number_lt. rewrite Z.ltb_lt, Z.ltb_ge. lia.
Qed.

Lemma sample_ge_trans a b c :
  sample_number_lt a b = false -> sample_number_lt b c = false ->
  sample_number_lt a c = false.
Proof.
  unfold sample_number_lt. rewrite !Z.ltb_ge. lia.
Qed.

Lemma fetch_recent_pages_with_files_witness :
  exists eligible ranked,
    RecentPages.with_timestamps sample_round_mb sample_isoformat
      (sample_stat 1733011200) (Filesystem.on_disk sample_disk)
      "graph" sample_recent = Ok eligible
    /\ Permutation ranked eligible
    /\ StronglySorted (RecentPages.newest_first sample_number_lt) ranked
    /\ sample_recent_result = List.map RecentPages.WithFile (take 20 ranked)
    /\ (List.length sample_recent_result <= 20)%nat
    /\ Forall (RecentPages.resolved sample_round_mb sample_isoformat
                 (sample_stat 1733011200) (Filesystem.on_disk sample_disk)
                 "graph" sample_recent)
              (take 20 ranked).
Proof.
  apply (fetch_recent_pages_with_files sample_round_mb sample_isoformat
           (sample_stat 1733011200) (Filesystem.on_disk sample_disk)
           sample_number_lt (Ok sample_recent) sample_config
           sample_lt_asym sample_ge_trans "graph" sample_recent
           sample_recent_result).
  - reflexivity.
  - reflexivity.
  - vm_compute. reflexivity.
Defined.

(** ** The fetcher of the graph information *)

Section GraphInfoBehaviour.

Import Config Filesystem.

Context {float X : Type}.
Variable round_mb : Z -> float.
Variable fromtimestamp_isoformat : float -> result string.
Variable stat : Path -> result (@stat_result float).
Variable path_exists : Path -> bool.
Variable glob : Path -> string -> list (list string).
Variable get_current_graph : result (option (list (string * X))).
Variable config : Config.

Abbreviation add_sizes :=
  (GraphInfo.add_sizes round_mb fromtimestamp_isoformat stat).
Abbreviation counted_size :=
  (GraphInfo.counted_size round_mb fromtimestamp_isoformat stat).
Abbreviation sum_sizes :=
  (GraphInfo.sum_sizes round_mb fromtimestamp_isoformat stat).
Abbreviation compute_file_stats :=
  (GraphInfo.compute_file_stats round_mb fromtimestamp_isoformat stat
     path_exists glob).
Abbreviation fetch_graph_info :=
  (GraphInfo.fetch_graph_info round_mb fromtimestamp_isoformat stat
     path_exists glob get_current_graph config).

Lemma add_sizes_total files total_size total :
  add_sizes total_size files = Ok total ->
  total = total_size + sum_sizes files.
Proof.
  revert total_size. induction files as [| file files IH]; intros t.
  - intros [= <-]. simpl. lia.
  - cbn [GraphInfo.add_sizes]. unfold Py.bind.
    destruct (get_file_metadata _ _ _ file) as [m | e] eqn:Hm; [| discriminate].
    intros H. apply IH in H. subst total.
    assert (Hc : counted_size file = size m)
      by (unfold GraphInfo.counted_size; rewrite Hm; reflexivity).
    change (sum_sizes (file :: files))
      with (counted_size file + sum_sizes files).
    rewrite Hc. lia.
Qed.

Lemma counted_size_of_stat file :
  counted_size file
  = match stat file with
    | Ok st =>
        match fromtimestamp_isoformat (st_mtime st),
              fromtimestamp_isoformat (st_ctime st) with
        | Ok _, Ok _ => st_size st
        | _, _ => 0
        end
    | Raise _ => 0
    end.
Proof.
  unfold GraphInfo.counted_size, get_file_metadata, try_stat, Py.bind.
  destruct (stat file) as [st | e]; cbn.
  - destruct (fromtimestamp_isoformat (st_mtime st)) as [md | e]; cbn.
    + destruct (fromtimestamp_isoformat (st_ctime st)) as [cd | e]; cbn;
        [reflexivity | destruct (Py.is_OSError e); reflexivity].
    + destruct (Py.is_OSError e); reflexivity.
  - destruct (Py.is_OSError e); reflexivity.
Qed.

Lemma md_files_of_directories graph_path directory :
  In directory ["pages"; "journals"] ->
  GraphInfo.md_files glob
    (assoc directory (get_graph_directories path_exists graph_path))
  = if path_exists (Path_of graph_path ++ [directory])%list
    then glob_paths glob (Path_of graph_path ++ [directory])%list "*.md"
    else [].
Proof.
  intros Hd.
  rewrite (get_graph_directories_lookup path_exists graph_path).
  destruct Hd as [<- | [<- | []]]; cbn [assoc String.eqb Ascii.eqb Bool.eqb];
    destruct (path_exists _); reflexivity.
Qed.

(** The file statistics count every [*.md] match in the existing [pages]
    and [journals] directories, also a file whose [stat] then fails, and
    add up the sizes of the files whose metadata could be read: a file
    with the zeroed record is counted but adds no bytes. *)
Theorem compute_file_stats_spec graph_path stats :
  compute_file_stats graph_path = Ok stats ->
  let found := fun directory =>
    if path_exists (Path_of graph_path ++ [directory])%list
    then glob_paths glob (Path_of graph_path ++ [directory])%list "*.md"
    else [] in
  GraphInfo.page_count stats = List.length (found "pages")
  /\ GraphInfo.journal_count stats = List.length (found "journals")
  /\ GraphInfo.graph_path stats = graph_path
  /\ GraphInfo.total_size_mb stats
     = round_mb (sum_sizes (found "pages" ++ found "journals")%list)
  /\ forall file,
       counted_size file
       = match stat file with
         | Ok st =>
             match fromtimestamp_isoformat (st_mtime st),
                   fromtimestamp_isoformat (st_ctime st) with
             | Ok _, Ok _ => st_size st
             | _, _ => 0
             end
         | Raise _ => 0
         end.
Proof.
  unfold GraphInfo.compute_file_stats. cbv zeta.
  rewrite !md_files_of_directories by (simpl; auto).
  unfold Py.bind.
  destruct (add_sizes 0 _) as [total | e] eqn:Ht; [| discriminate].
  intros [= <-]. cbn.
  apply add_sizes_total in Ht. rewrite Ht.
  repeat split; try reflexivity.
  intros file. apply counted_size_of_stat.
Qed.

Lemma assoc_remote (reply : list (string * X)) k :
  assoc k (List.map (fun item => (fst item, @GraphInfo.Remote float X (snd item)))
                    reply)
  = option_map (@GraphInfo.Remote float X) (assoc k reply).
Proof.
  induction reply as [| [k0 v0] reply IH]; [reflexivity |].
  cbn [List.map assoc fst snd]. destruct (String.eqb k k0); [reflexivity | exact IH].
Qed.

(** What [fetch_graph_info] returns is a dictionary: the reply of the
    client, which has to be a dictionary, with [api_url] and [cache_ttl]
    set from the configuration (replacing such keys of the reply), with
    [file_stats] set when a graph path is configured, and with every other
    key of the reply unchanged. *)
Theorem fetch_graph_info_keys r :
  fetch_graph_info = Ok r ->
  exists reply d,
    get_current_graph = Ok (Some reply)
    /\ r = Some d
    /\ assoc "api_url" d = Some (GraphInfo.ApiUrl (LOGSEQ_API_URL config))
    /\ assoc "cache_ttl" d = Some (GraphInfo.CacheTtl (CACHE_TTL config))
    /\ match graph_path_of config with
       | Some graph_path =>
           exists stats,
             compute_file_stats graph_path = Ok stats
             /\ assoc "file_stats" d = Some (GraphInfo.FileStats stats)
       | None =>
           assoc "file_stats" d
           = option_map GraphInfo.Remote (assoc "file_stats" reply)
       end
    /\ forall k,
         k <> "api_url" -> k <> "cache_ttl" -> k <> "file_stats" ->
         assoc k d = option_map GraphInfo.Remote (assoc k reply).
Proof.
  unfold GraphInfo.fetch_graph_info, Py.bind.
  destruct get_current_graph as [[reply |] | e]; cbn [option_map].
  - destruct (graph_path_of config) as [graph_path |].
    + destruct (compute_file_stats graph_path) as [stats | e];
        [| discriminate].
      cbn. intros [= <-]. exists reply. eexists.
      split; [reflexivity | split; [reflexivity |]].
      rewrite !assoc_dict_set. cbn.
      split; [reflexivity | split; [reflexivity | split]].
      * exists stats. split; reflexivity.
      * intros k H1 H2 H3. rewrite !assoc_dict_set.
        apply String.eqb_neq in H1, H2, H3. rewrite H1, H2, H3.
        apply assoc_remote.
    + cbn. intros [= <-]. exists reply. eexists.
      split; [reflexivity | split; [reflexivity |]].
      rewrite !assoc_dict_set. cbn.
      split; [reflexivity | split; [reflexivity | split]].
      * apply assoc_remote.
      * intros k H1 H2 H3. rewrite !assoc_dict_set.
        apply String.eqb_neq in H1, H2. rewrite H1, H2.
        apply assoc_remote.
  - destruct (graph_path_of config) as [graph_path |].
    + destruct (compute_file_stats graph_path); discriminate.
    + discriminate.
  - discriminate.
Qed.

End GraphInfoBehaviour.

Lemma compute_file_stats_spec_witness :
  let found := fun directory =>
    if Filesystem.on_disk sample_disk (Filesystem.Path_of "graph" ++ [directory])%list
    then Filesystem.glob_paths sample_glob
           (Filesystem.Path_of "graph" ++ [directory])%list "*.md"
    else [] in
  GraphInfo.page_count sample_stats = List.length (found "pages")
  /\ GraphInfo.journal_count sample_stats = List.length (found "journals")
  /\ GraphInfo.graph_path sample_stats = "graph"
  /\ GraphInfo.total_size_mb sample_stats
     = sample_round_mb
         (GraphInfo.sum_sizes sample_round_mb sample_isoformat
            (sample_stat 1733011200) (found "pages" ++ found "journals")%list)
  /\ forall file,
       GraphInfo.counted_size sample_round_mb sample_isoformat
         (sample_stat 1733011200) file
       = match sample_stat 1733011200 file with
         | Ok st =>
             match sample_isoformat (Filesystem.st_mtime st),
                   sample_isoformat (Filesystem.st_ctime st) with
             | Ok _, Ok _ => Filesystem.st_size st
             | _, _ => 0
             end
         | Raise _ => 0
         end.
Proof.
  apply (compute_file_stats_spec sample_round_mb sample_isoformat
           (sample_stat 1733011200) (Filesystem.on_disk sample_disk)
           sample_glob "graph" sample_stats).
  vm_compute. reflexivity.
Defined.

Lemma fetch_graph_info_keys_witness :
  exists reply d,
    Ok (Some sample_graph) = Ok (Some reply)
    /\ Some sample_info = Some d
    /\ Config.assoc "api_url" d
       = Some (GraphInfo.ApiUrl (Config.LOGSEQ_API_URL sample_config))
    /\ Config.assoc "cache_ttl" d
       = Some (GraphInfo.CacheTtl (Config.CACHE_TTL sample_config))
    /\ match Config.graph_path_of sample_config with
       | Some graph_path =>
           exists stats,
             GraphInfo.compute_file_stats sample_round_mb sample_isoformat
               (sample_stat 1733011200) (Filesystem.on_disk sample_disk)
               sample_glob graph_path = Ok stats
             /\ Config.assoc "file_stats" d = Some (GraphInfo.FileStats stats)
       | None =>
           Config.assoc "file_stats" d
           = option_map GraphInfo.Remote (Config.assoc "file_stats" reply)
       end
    /\ forall k,
         k <> "api_url" -> k <> "cache_ttl" -> k <> "file_stats" ->
         Config.assoc k d = option_map GraphInfo.Remote (Config.assoc k reply).
Proof.
  apply (fetch_graph_info_keys sample_round_mb sample_isoformat
           (sample_stat 1733011200) (Filesystem.on_disk sample_disk)
           sample_glob (Ok (Some sample_graph)) sample_config
           (Some sample_info)).
  vm_compute. reflexivity.
Defined.

Example scan_graph_files_sample :
  Filesystem.scan_graph_files (Filesystem.on_disk sample_disk) sample_glob
    "graph" ".md"
  = [ ["graph"; "journals"; "2024_12_01.md"];
      ["graph"; "pages"; "Parent___Child.md"] ].
Proof. vm_compute. reflexivity. Qed.

Example sorted_paths_sample :
  Filesystem.sorted_paths
    [ ["graph"; "pages"; "b.md"]; ["graph"; "pages"; "a.md"];
      ["graph"; "journals"; "z.md"] ]
  = [ ["graph"; "journals"; "z.md"]; ["graph"; "pages"; "a.md"];
      ["graph"; "pages"; "b.md"] ].
Proof. vm_compute. reflexivity. Qed.

Example get_graph_directories_sample :
  Filesystem.get_graph_directories (Filesystem.on_disk sample_disk) "graph"
  = [ ("root", ["graph"]); ("pages", ["graph"; "pages"]);
      ("journals", ["graph"; "journals"]) ].
Proof. vm_compute. reflexivity. Qed.

Example fetch_graph_info_not_a_dictionary :
  GraphInfo.fetch_graph_info sample_round_mb sample_isoformat
    (sample_stat 1733011200) (Filesystem.on_disk sample_disk) sample_glob
    (Ok (@None (list (string * string)))) sample_config
  = Raise (TypeError "object does not support item assignment").
Proof. vm_compute. reflexivity. Qed.
